(** * p4runtime_lib/switch.py: stream multiplexing, connection operations,
      request logging

    A shallow embedding of [utils/p4runtime_lib/switch.py].  Python objects
    are records, [queue.Queue] is a list with its oldest element at the
    head, a call that can raise or block returns an [Outcome], and the
    methods of [SwitchConnection] run in a state monad over a [World] that
    holds the connection, the remote device's behaviour and the trace of
    every effect performed so far. *)

From Stdlib Require Import ZArith List String Ascii Bool Lia.
From Stdlib.Strings Require Import Byte.
From Stdlib Require DecimalString.
Import ListNotations.

Local Open Scope string_scope.
Local Open Scope list_scope.

(** ** Python values and control *)

Module Py.

(** Exceptions that the modelled code can meet. *)
Inductive Exn : Type :=
| ValueError (msg : string)
| OverflowError (msg : string)
| RpcError (code : Z)
| RuntimeError (msg : string)
| OSError (msg : string).

(** What a call does: it returns a value, raises, or blocks for ever
    (a [Queue.get] on a queue that nobody fills). *)
Inductive Outcome (A : Type) : Type :=
| Ret (a : A)
| Raise (e : Exn)
| Block.

Arguments Ret {A} a.
Arguments Raise {A} e.
Arguments Block {A}.

Definition bytes := list byte.

Definition byte_of_Z (z : Z) : byte :=
  match Byte.of_N (Z.to_N z) with
  | Some b => b
  | None => x00
  end.

Definition Z_of_byte (b : byte) : Z := Z.of_N (Byte.to_N b).

(** The [length] low-order base-256 digits of [v], least significant
    first. *)
Fixpoint digits256 (length : nat) (v : Z) : bytes :=
  match length with
  | O => []
  | S k => byte_of_Z (v mod 256) :: digits256 k (v / 256)
  end.

(** The largest C [Py_ssize_t], and the size of the header of a bytes
    object, on a 64-bit CPython. *)
Definition PY_SSIZE_T_MAX : Z := (2 ^ 63 - 1)%Z.
Definition PyBytesObject_SIZE : Z := 33%Z.

(** [int.to_bytes(length, 'big')] with the default [signed=False], in the
    order CPython proceeds.  [length] counts BYTES and is converted to a C
    [Py_ssize_t] first: outside that type's range the call raises
    OverflowError.  Then a negative length is a ValueError; a length for
    which no bytes object can exist is an OverflowError; and a negative
    value or one that needs more than [length] bytes is an OverflowError.
    The allocation of the result itself is taken to succeed (a
    MemoryError of the allocator is not modelled). *)
Definition int_to_bytes_big (v : Z) (length : Z) : Outcome bytes :=
  if ((length <? - PY_SSIZE_T_MAX - 1) || (PY_SSIZE_T_MAX <? length))%Z then
    Raise (OverflowError "Python int too large to convert to C ssize_t")
  else if (length <? 0)%Z then
    Raise (ValueError "length argument must be non-negative")
  else if (PY_SSIZE_T_MAX - PyBytesObject_SIZE <? length)%Z then
    Raise (OverflowError "byte string is too large")
  else if (v <? 0)%Z then
    Raise (OverflowError "can't convert negative int to unsigned")
  else if (256 ^ length <=? v)%Z then
    Raise (OverflowError "int too big to convert")
  else Ret (List.rev (digits256 (Z.to_nat length) v)).

(** The value a big-endian byte string denotes. *)
Definition int_from_bytes_big (bs : bytes) : Z :=
  fold_left (fun acc b => (acc * 256 + Z_of_byte b)%Z) bs 0%Z.

(** [s[:-3]] *)
Definition drop_last3 (s : string) : string :=
  substring 0 (String.length s - 3) s.

(** ["%d" % n] for a length. *)
Definition fmt_d (n : nat) : string :=
  DecimalString.NilEmpty.string_of_uint (Nat.to_uint n).

Definition newline : string := String (ascii_of_nat 10) EmptyString.

(** ["%d" % v] for an integer. *)
Definition fmt_int (v : Z) : string :=
  DecimalString.NilZero.string_of_int (Z.to_int v).

(** Assigning a Python int to a scalar field of a protobuf message: the
    value is stored when it is in the range of the field's type, and the
    assignment raises ValueError otherwise. *)
Definition set_field (lo hi : Z) (v : Z) : Outcome Z :=
  if ((lo <=? v) && (v <=? hi))%Z then Ret v
  else Raise (ValueError ("Value out of range: " ++ fmt_int v)).

Definition set_uint32 : Z -> Outcome Z := set_field 0 (2 ^ 32 - 1).
Definition set_uint64 : Z -> Outcome Z := set_field 0 (2 ^ 64 - 1).
Definition set_int64 : Z -> Outcome Z := set_field (- 2 ^ 63) (2 ^ 63 - 1).

End Py.
Import Py.

(** ** Protobuf messages (p4runtime_pb2), as far as switch.py touches them *)

(** A message whose fields the code never reads, kept as an opaque blob. *)
Definition Proto := bytes.

Record Uint128 := mkUint128 { high : Z; low : Z }.

Record MasterArbitrationUpdate := mkArbitration {
  arb_device_id : Z;
  arb_election_id : Uint128
}.

Record PacketMetadata := mkPacketMetadata {
  metadata_id : Z;
  value : bytes
}.

Record PacketOutMsg := mkPacketOut {
  po_payload : bytes;
  po_metadata : list PacketMetadata
}.

(** [StreamMessageRequest]: a oneof; switch.py fills [arbitration] or
    [packet]. *)
Inductive StreamMessageRequest : Type :=
| req_not_set
| req_arbitration (a : MasterArbitrationUpdate)
| req_packet (p : PacketOutMsg).

(** [StreamMessageResponse]: the oneof [update].  Besides the four variants
    the dispatcher routes, the schema has [digest] and [other], and the
    oneof may be empty. *)
Inductive StreamMessageResponse : Type :=
| resp_arbitration (p : Proto)
| resp_packet (p : Proto)
| resp_digest (p : Proto)
| resp_idle_timeout_notification (p : Proto)
| resp_other (p : Proto)
| resp_error (p : Proto)
| resp_not_set.

Definition WhichOneof (msg : StreamMessageResponse) : option string :=
  match msg with
  | resp_arbitration _ => Some "arbitration"
  | resp_packet _ => Some "packet"
  | resp_digest _ => Some "digest"
  | resp_idle_timeout_notification _ => Some "idle_timeout_notification"
  | resp_other _ => Some "other"
  | resp_error _ => Some "error"
  | resp_not_set => None
  end.

(** [msg.HasField(name)] for a member of the oneof. *)
Definition HasField (msg : StreamMessageResponse) (name : string) : bool :=
  match WhichOneof msg with
  | Some set => String.eqb name set
  | None => false
  end.

(** Reading a member of the oneof that is not the populated one gives the
    default (empty) message. *)
Definition get_arbitration (msg : StreamMessageResponse) : Proto :=
  match msg with resp_arbitration p => p | _ => [] end.
Definition get_packet (msg : StreamMessageResponse) : Proto :=
  match msg with resp_packet p => p | _ => [] end.
Definition get_idle_timeout_notification (msg : StreamMessageResponse) : Proto :=
  match msg with resp_idle_timeout_notification p => p | _ => [] end.
Definition get_error (msg : StreamMessageResponse) : Proto :=
  match msg with resp_error p => p | _ => [] end.

Inductive UpdateType : Type := UNSPECIFIED | INSERT | MODIFY | DELETE.

Record TableEntry := mkTableEntry {
  table_id : Z;
  is_default_action : bool;
  te_rest : Proto
}.

Inductive Entity : Type :=
| entity_table_entry (t : TableEntry)
| entity_counter_entry (counter_id : Z) (index : option Z)
| entity_packet_replication_engine_entry (p : Proto).

Record Update := mkUpdate {
  type : UpdateType;
  entity : Entity
}.

Record WriteRequest := mkWriteRequest {
  wr_device_id : Z;
  wr_election_id : Uint128;
  updates : list Update
}.

Record ReadRequest := mkReadRequest {
  rr_device_id : Z;
  entities : list Entity
}.

Inductive ConfigAction : Type := VERIFY_AND_COMMIT.

Record ForwardingPipelineConfig := mkFwdConfig {
  p4info : Proto;
  p4_device_config : bytes
}.

Record SetForwardingPipelineConfigRequest := mkSetFwd {
  sf_device_id : Z;
  sf_election_id : Uint128;
  sf_action : ConfigAction;
  sf_config : ForwardingPipelineConfig
}.

(** ** IterableQueue *)

Module IterableQueue.

(** What the queue holds: a request, or the class-level [_sentinel]
    object, which no request is equal to. *)
Inductive Item : Type :=
| Msg (m : StreamMessageRequest)
| Sentinel.

(** Oldest element first. *)
Definition t := list Item.

Definition empty : t := [].

(** [Queue.put]: the queue is unbounded, so this never blocks. *)
Definition put (q : t) (x : Item) : t := q ++ [x].

(** [Queue.get]: the oldest element, or blocks on an empty queue. *)
Definition get (q : t) : Outcome Item * t :=
  match q with
  | [] => (Block, [])
  | x :: rest => (Ret x, rest)
  end.

Definition close (q : t) : t := put q Sentinel.

Definition is_sentinel (x : Item) : bool :=
  match x with Sentinel => true | Msg _ => false end.

(** The iterator [iter(self.get, self._sentinel)]: it calls [get] at each
    step and is exhausted for good once [get] has returned the
    sentinel. *)
Record Iterator := mkIterator { exhausted : bool }.

Definition __iter__ : Iterator := mkIterator false.

Inductive Next : Type :=
| Yield (m : StreamMessageRequest)
| StopIteration
| Blocked
| Raised (e : Exn).

Definition next (it : Iterator) (q : t) : Next * Iterator * t :=
  if exhausted it then (StopIteration, it, q)
  else
    match get q with
    | (Ret (Msg m), q') => (Yield m, it, q')
    | (Ret Sentinel, q') => (StopIteration, mkIterator true, q')
    | (Block, q') => (Blocked, it, q')
    | (Raise e, q') => (Raised e, it, q')
    end.

(** How a consumer's [for x in queue] ends. *)
Inductive Ending : Type :=
| Finished          (* StopIteration: the loop is over *)
| Waiting           (* blocked inside get *)
| Failed (e : Exn)
| OutOfFuel.

(** The transport's loop over the iterator, bounded by [fuel] steps:
    the messages it was handed, how it ended, and what is left. *)
Fixpoint consume (fuel : nat) (it : Iterator) (q : t)
  : list StreamMessageRequest * Ending * Iterator * t :=
  match fuel with
  | O => ([], OutOfFuel, it, q)
  | S fuel' =>
      match next it q with
      | (Yield m, it', q') =>
          let '(ms, e, it'', q'') := consume fuel' it' q' in
          (m :: ms, e, it'', q'')
      | (StopIteration, it', q') => ([], Finished, it', q')
      | (Blocked, it', q') => ([], Waiting, it', q')
      | (Raised e, it', q') => ([], Failed e, it', q')
      end
  end.

(** A sequence of puts, oldest first. *)
Definition puts (q : t) (ms : list StreamMessageRequest) : t :=
  fold_left (fun acc m => put acc (Msg m)) ms q.

End IterableQueue.

(** ** StreamDispatcher *)

Module StreamDispatcher.

(** The dispatcher object.  Its [stream] is the list of messages given to
    [_dispatch_loop]; the thread that runs the loop has no state of its
    own. *)
Record t := mk {
  running : bool;
  arbitration_queue : list Proto;
  packet_in_queue : list Proto;
  timeout_queue : list Proto;
  error_queue : list Proto
}.

(** A line written by [print]: the leading text and the printed object. *)
Definition Diagnostic := (string * StreamMessageResponse)%type.

(** [__init__]: the flag is set, the four queues are empty. *)
Definition __init__ : t := mk true [] [] [] [].

Definition stop (d : t) : t :=
  mk false (arbitration_queue d) (packet_in_queue d) (timeout_queue d)
     (error_queue d).

(** The body of the loop below its [running] test: the if/elif chain. *)
Definition route (msg : StreamMessageResponse) (d : t) (out : list Diagnostic)
  : t * list Diagnostic :=
  if HasField msg "arbitration" then
    (mk (running d) (arbitration_queue d ++ [get_arbitration msg])
        (packet_in_queue d) (timeout_queue d) (error_queue d), out)
  else if HasField msg "packet" then
    (mk (running d) (arbitration_queue d)
        (packet_in_queue d ++ [get_packet msg])
        (timeout_queue d) (error_queue d), out)
  else if HasField msg "idle_timeout_notification" then
    (mk (running d) (arbitration_queue d) (packet_in_queue d)
        (timeout_queue d ++ [get_idle_timeout_notification msg])
        (error_queue d), out)
  else if HasField msg "error" then
    (mk (running d) (arbitration_queue d) (packet_in_queue d)
        (timeout_queue d) (error_queue d ++ [get_error msg]), out)
  else
    (d, out ++ [("Unknown StreamMessageResponse:", msg)]).

(** [_dispatch_loop] over the messages the stream yields; [running] is
    read at the top of every iteration and a cleared flag breaks out. *)
Fixpoint _dispatch_loop (stream : list StreamMessageResponse) (d : t)
         (out : list Diagnostic) : t * list Diagnostic :=
  match stream with
  | [] => (d, out)
  | msg :: rest =>
      if negb (running d) then (d, out)
      else let '(d', out') := route msg d out in
           _dispatch_loop rest d' out'
  end.

(** The messages the dispatcher routes (one of the four variants set). *)
Definition well_formed (msg : StreamMessageResponse) : bool :=
  HasField msg "arbitration" || HasField msg "packet"
  || HasField msg "idle_timeout_notification" || HasField msg "error".

(** The payloads of one variant in a stream, in arrival order. *)
Definition arbitrations (s : list StreamMessageResponse) : list Proto :=
  flat_map (fun m => match m with resp_arbitration p => [p] | _ => [] end) s.
Definition packets (s : list StreamMessageResponse) : list Proto :=
  flat_map (fun m => match m with resp_packet p => [p] | _ => [] end) s.
Definition idle_timeouts (s : list StreamMessageResponse) : list Proto :=
  flat_map (fun m => match m with
                     | resp_idle_timeout_notification p => [p]
                     | _ => [] end) s.
Definition errors (s : list StreamMessageResponse) : list Proto :=
  flat_map (fun m => match m with resp_error p => [p] | _ => [] end) s.

(** Everything queued, over the four queues. *)
Definition queued (d : t) : nat :=
  List.length (arbitration_queue d) + List.length (packet_in_queue d)
  + List.length (timeout_queue d) + List.length (error_queue d).

End StreamDispatcher.

(** ** GrpcRequestLogger *)

Module GrpcRequestLogger.

Definition MSG_LOG_MAX_LEN : nat := 1024.

Inductive Mode : Type := mode_w | mode_a.

(** The files by path, and every [open] performed so far, oldest
    first. *)
Record FileSystem := mkFS {
  files : string -> option string;
  opened : list (string * Mode)
}.

Definition content (fs : FileSystem) (path : string) : string :=
  match files fs path with Some s => s | None => "" end.

Definition store (fs : FileSystem) (path : string) (s : string)
  : string -> option string :=
  fun p => if String.eqb p path then Some s else files fs p.

(** [open(path, 'w')]: the file is created or cut to length 0. *)
Definition open_w (path : string) (fs : FileSystem) : FileSystem :=
  mkFS (store fs path "") (opened fs ++ [(path, mode_w)]).

(** [open(path, 'a')]: the file is created if missing, its content is
    kept, and writes go to its end. *)
Definition open_a (path : string) (fs : FileSystem) : FileSystem :=
  mkFS (store fs path (content fs path)) (opened fs ++ [(path, mode_a)]).

(** [f.write(s)] on a file opened on [path]. *)
Definition write (path : string) (s : string) (fs : FileSystem) : FileSystem :=
  mkFS (store fs path (content fs path ++ s)) (opened fs).

Record t := mk { log_file : string }.

Definition __init__ (log_file : string) (fs : FileSystem) : t * FileSystem :=
  let self := mk log_file in
  let fs := open_w (GrpcRequestLogger.log_file self) fs in
  (* Clear content if it exists. *)
  let fs := write (GrpcRequestLogger.log_file self) "" fs in
  (self, fs).

(** [GrpcRequestLogger(log_file)] as a caller meets it: [refused] is
    the operating system's answer to [open(log_file, 'w')], the error it
    raises for that path, if any (a missing directory, no permission);
    then the constructor raises it and no logger exists. *)
Definition create (refused : string -> option Exn) (log_file : string)
           (fs : FileSystem) : Outcome t * FileSystem :=
  match refused log_file with
  | Some e => (Raise e, fs)
  | None =>
      let '(self, fs') := __init__ log_file fs in
      (Ret self, fs')
  end.

Definition header (ts method_name : string) : string :=
  newline ++ "[" ++ ts ++ "] " ++ method_name ++ newline ++ "---" ++ newline.

Definition too_long (n : nat) : string :=
  "Message too long (" ++ fmt_d n ++ " bytes)! Skipping log..." ++ newline.

Definition trailer : string := "---" ++ newline.

Section Logging.

(** The request objects and their rendering [str(body)]. *)
Variable Body : Type.
Variable str : Body -> string.

(** [log_message]; [now] is what
    [datetime.utcnow().strftime('%Y-%m-%d %H:%M:%S.%f')] gives at the
    call. *)
Definition log_message (self : t) (now : string) (method_name : string)
           (body : Body) (fs : FileSystem) : FileSystem :=
  let fs := open_a (log_file self) fs in
  let ts := drop_last3 now in
  let msg := str body in
  let fs := write (log_file self) (header ts method_name) fs in
  let fs :=
    if (String.length msg <? MSG_LOG_MAX_LEN)%nat then
      write (log_file self) (str body) fs
    else
      write (log_file self) (too_long (String.length msg)) fs in
  write (log_file self) trailer fs.

(** [intercept_unary_unary] and [intercept_unary_stream]: the request
    is logged under the call's method name and handed on. *)
Definition intercept {R : Type} (self : t) (now : string)
           (continuation : string -> Body -> R) (method : string)
           (request : Body) (fs : FileSystem) : R * FileSystem :=
  let fs := log_message self now method request fs in
  (continuation method request, fs).

(** One logged call: the clock reading, the method name, the body. *)
Definition Call := (string * string * Body)%type.

Definition log_calls (self : t) (calls : list Call) (fs : FileSystem)
  : FileSystem :=
  fold_left (fun fs c => let '(now, method, body) := c in
                         log_message self now method body fs)
            calls fs.

End Logging.

(** How many times [path] has been opened for writing from scratch. *)
Definition truncations (path : string) (fs : FileSystem) : nat :=
  List.length
    (filter (fun o => match o with
                      | (p, mode_w) => String.eqb p path
                      | (_, mode_a) => false
                      end) (opened fs)).

(** What a record holds between its header and its trailer. *)
Definition record_of (ts method_name middle : string) : string :=
  header ts method_name ++ middle ++ trailer.

End GrpcRequestLogger.

(** ** SwitchConnection *)

Module SwitchConnection.

(** The connection object.  [cls] is the class the object was made from
    ([SwitchConnection] itself or a subclass); the gRPC channel and stub
    are the [stub] of the [World] below.  [device_id] is whatever integer
    the constructor was given: the methods meet its range when they
    assign it to a uint64 field. *)
Record t := mk {
  cls : string;
  name : option string;
  address : string;
  device_id : Z;
  requests_stream : IterableQueue.t;
  dispatcher : StreamDispatcher.t;
  proto_dump_file : option string
}.

Inductive QueueName : Type :=
| arbitration_q | packet_in_q | timeout_q | error_q.

(** The objects the methods hand to [print]. *)
Inductive Printable : Type :=
| PStreamRequest (r : StreamMessageRequest)
| PSetForwardingPipelineConfig (r : SetForwardingPipelineConfigRequest)
| PWrite (r : WriteRequest)
| PRead (r : ReadRequest)
| PPayload (p : Proto).

(** The synchronous calls on [client_stub]. *)
Inductive Rpc : Type :=
| RpcSetForwardingPipelineConfig (r : SetForwardingPipelineConfigRequest)
| RpcWrite (r : WriteRequest)
| RpcRead (r : ReadRequest).

(** What the remote side answers to a call: the response chunks, and
    the error the call ends with, if any. *)
Record Reply := mkReply { chunks : list Proto; failure : option Exn }.

(** Every effect a method performs, oldest first. *)
Inductive Event : Type :=
| EvPrint (text : string) (obj : Printable)
| EvPut (x : IterableQueue.Item)      (* requests_stream.put *)
| EvGet (q : QueueName)               (* a blocking get on a delivery queue *)
| EvCall (c : Rpc).                   (* a call on client_stub *)

Record World := mkWorld {
  self : t;
  stub : Rpc -> Reply;
  trace : list Event
}.

Definition M (A : Type) : Type := World -> Outcome A * World.

Definition ret {A} (a : A) : M A := fun w => (Ret a, w).

Definition bind {A B} (m : M A) (k : A -> M B) : M B :=
  fun w =>
    match m w with
    | (Ret a, w') => k a w'
    | (Raise e, w') => (Raise e, w')
    | (Block, w') => (Block, w')
    end.

Declare Scope py_scope.
Delimit Scope py_scope with py.
Notation "x <- m ;; k" := (bind m (fun x => k))
  (at level 61, m at next level, right associativity) : py_scope.
Notation "m ;; k" := (bind m (fun _ => k))
  (at level 61, right associativity) : py_scope.
Local Open Scope py_scope.

(** A pure computation that may raise, run inside a method. *)
Definition lift {A} (o : Outcome A) : M A := fun w => (o, w).

Definition get_self : M t := fun w => (Ret (self w), w).

Definition emit (e : Event) : M unit :=
  fun w => (Ret tt, mkWorld (self w) (stub w) (trace w ++ [e])).

Definition set_self (c : t) : M unit :=
  fun w => (Ret tt, mkWorld c (stub w) (trace w)).

Definition print (text : string) (obj : Printable) : M unit :=
  emit (EvPrint text obj).

Definition with_requests_stream (c : t) (q : IterableQueue.t) : t :=
  mk (cls c) (name c) (address c) (device_id c) q (dispatcher c)
     (proto_dump_file c).

Definition with_dispatcher (c : t) (d : StreamDispatcher.t) : t :=
  mk (cls c) (name c) (address c) (device_id c) (requests_stream c) d
     (proto_dump_file c).

(** [self.requests_stream.put(x)] *)
Definition requests_stream_put (x : IterableQueue.Item) : M unit :=
  emit (EvPut x) ;;
  c <- get_self ;;
  set_self (with_requests_stream c (IterableQueue.put (requests_stream c) x)).

Definition queue_of (q : QueueName) (d : StreamDispatcher.t) : list Proto :=
  match q with
  | arbitration_q => StreamDispatcher.arbitration_queue d
  | packet_in_q => StreamDispatcher.packet_in_queue d
  | timeout_q => StreamDispatcher.timeout_queue d
  | error_q => StreamDispatcher.error_queue d
  end.

Definition set_queue (q : QueueName) (l : list Proto) (d : StreamDispatcher.t)
  : StreamDispatcher.t :=
  match q with
  | arbitration_q =>
      StreamDispatcher.mk (StreamDispatcher.running d) l
        (StreamDispatcher.packet_in_queue d) (StreamDispatcher.timeout_queue d)
        (StreamDispatcher.error_queue d)
  | packet_in_q =>
      StreamDispatcher.mk (StreamDispatcher.running d)
        (StreamDispatcher.arbitration_queue d) l
        (StreamDispatcher.timeout_queue d) (StreamDispatcher.error_queue d)
  | timeout_q =>
      StreamDispatcher.mk (StreamDispatcher.running d)
        (StreamDispatcher.arbitration_queue d)
        (StreamDispatcher.packet_in_queue d) l
        (StreamDispatcher.error_queue d)
  | error_q =>
      StreamDispatcher.mk (StreamDispatcher.running d)
        (StreamDispatcher.arbitration_queue d)
        (StreamDispatcher.packet_in_queue d)
        (StreamDispatcher.timeout_queue d) l
  end.

(** [self.dispatcher.<q>.get()]: the oldest payload of the queue; on an
    empty queue the caller blocks. *)
Definition queue_get (q : QueueName) : M Proto :=
  emit (EvGet q) ;;
  c <- get_self ;;
  match queue_of q (dispatcher c) with
  | [] => lift Block
  | p :: rest =>
      set_self (with_dispatcher c (set_queue q rest (dispatcher c))) ;;
      ret p
  end.

(** A unary call on the stub: it returns or raises the transport's
    error. *)
Definition call (c : Rpc) : M unit :=
  emit (EvCall c) ;;
  reply <- (fun w => (Ret (stub w c), w)) ;;
  match failure reply with
  | Some e => lift (Raise e)
  | None => ret tt
  end.

(** A generator object: nothing of its body runs when the method is
    called; iterating it to its end runs the body, giving the values
    yielded and how the iteration ended. *)
Definition Generator : Type := World -> (list Proto * Outcome unit) * World.

(** [for response in self.client_stub.Read(request): yield response] *)
Definition read_stream (c : Rpc) : Generator :=
  fun w =>
    let w' := mkWorld (self w) (stub w) (trace w ++ [EvCall c]) in
    let r := stub w c in
    (chunks r,
     match failure r with Some e => Raise e | None => Ret tt end,
     w').

Definition Kwargs := list (string * string).

(** The methods a subclass may define: [buildDeviceConfig], which
    computes a device configuration (serialized) from the keyword
    arguments or raises, and [shutdown]. *)
Record PyClass := mkClass {
  m_buildDeviceConfig : Kwargs -> Outcome Proto;
  m_shutdown : M unit
}.

Definition election_id_1 : Uint128 := mkUint128 0 1.

(** [buildDeviceConfig] of the base class: an empty P4DeviceConfig. *)
Definition buildDeviceConfig (kwargs : Kwargs) : Outcome Proto := Ret [].

Definition shutdown : M unit :=
  requests_stream_put IterableQueue.Sentinel ;;     (* requests_stream.close() *)
  c <- get_self ;;
  set_self (with_dispatcher c (StreamDispatcher.stop (dispatcher c))).

Definition SwitchConnection_class : PyClass :=
  mkClass buildDeviceConfig shutdown.

Definition MasterArbitrationUpdate (dry_run : bool) : M (option Proto) :=
  c <- get_self ;;
  id <- lift (set_uint64 (device_id c)) ;;
  let request := req_arbitration (mkArbitration id (mkUint128 0 1)) in
  if dry_run then
    print "P4Runtime MasterArbitrationUpdate: " (PStreamRequest request) ;;
    ret None
  else
    requests_stream_put (IterableQueue.Msg request) ;;
    r <- queue_get arbitration_q ;;
    ret (Some r).

Definition SetForwardingPipelineConfig (classes : string -> PyClass)
           (p4info : Proto) (dry_run : bool) (kwargs : Kwargs) : M unit :=
  c <- get_self ;;
  device_config <- lift (m_buildDeviceConfig (classes (cls c)) kwargs) ;;
  id <- lift (set_uint64 (device_id c)) ;;
  let request :=
    mkSetFwd id election_id_1 VERIFY_AND_COMMIT
             (mkFwdConfig p4info device_config) in
  if dry_run then
    print "P4Runtime SetForwardingPipelineConfig:"
          (PSetForwardingPipelineConfig request)
  else
    call (RpcSetForwardingPipelineConfig request).

Definition WriteTableEntry (table_entry : TableEntry) (dry_run : bool)
  : M unit :=
  c <- get_self ;;
  id <- lift (set_uint64 (device_id c)) ;;
  let update :=
    mkUpdate (if is_default_action table_entry then MODIFY else INSERT)
             (entity_table_entry table_entry) in
  let request := mkWriteRequest id election_id_1 [update] in
  if dry_run then print "P4Runtime Write:" (PWrite request)
  else call (RpcWrite request).

Definition DeleteTableEntry (table_entry : TableEntry) (dry_run : bool)
  : M unit :=
  c <- get_self ;;
  id <- lift (set_uint64 (device_id c)) ;;
  let update := mkUpdate DELETE (entity_table_entry table_entry) in
  let request := mkWriteRequest id election_id_1 [update] in
  if dry_run then print "P4Runtime Write:" (PWrite request)
  else call (RpcWrite request).

(** A generator whose body first computes [o]: when that raises, the
    iteration yields nothing and ends with the exception. *)
Definition gen_lift {A : Type} (o : Outcome A) (k : A -> Generator)
  : Generator :=
  fun w =>
    match o with
    | Ret a => k a w
    | Raise e => ([], Raise e, w)
    | Block => ([], Block, w)
    end.

(** The last step of both read methods. *)
Definition print_or_read (dry_run : bool) (request : ReadRequest) : Generator :=
  fun w =>
    if dry_run then
      ([], Ret tt,
       mkWorld (self w) (stub w)
               (trace w ++ [EvPrint "P4Runtime Read:" (PRead request)]))
    else read_stream (RpcRead request) w.

Definition ReadTableEntries (table_id : option Z) (dry_run : bool)
  : Generator :=
  fun w =>
    let c := self w in
    gen_lift (set_uint64 (device_id c)) (fun id =>
    gen_lift (set_uint32 (match table_id with Some i => i | None => 0%Z end))
      (fun tid =>
    let table_entry := mkTableEntry tid false [] in
    let request := mkReadRequest id [entity_table_entry table_entry] in
    print_or_read dry_run request)) w.

Definition ReadCounters (counter_id index : option Z) (dry_run : bool)
  : Generator :=
  fun w =>
    let c := self w in
    gen_lift (set_uint64 (device_id c)) (fun id =>
    gen_lift (set_uint32 (match counter_id with Some i => i | None => 0%Z end))
      (fun cid =>
    gen_lift (match index with
              | Some i =>
                  match set_int64 i with
                  | Ret i' => Ret (Some i')
                  | Raise e => Raise e
                  | Block => Block
                  end
              | None => Ret None
              end)
      (fun idx =>
    let counter_entry := entity_counter_entry cid idx in
    let request := mkReadRequest id [counter_entry] in
    print_or_read dry_run request))) w.

Definition WritePREEntry (pre_entry : Proto) (dry_run : bool) : M unit :=
  c <- get_self ;;
  id <- lift (set_uint64 (device_id c)) ;;
  let update :=
    mkUpdate INSERT (entity_packet_replication_engine_entry pre_entry) in
  let request := mkWriteRequest id election_id_1 [update] in
  if dry_run then print "P4Runtime Write:" (PWrite request)
  else call (RpcWrite request).

Definition PacketIn (dry_run : bool) : M (option Proto) :=
  request <- queue_get packet_in_q ;;
  if dry_run then
    print "P4 Runtime PacketIn: " (PPayload request) ;; ret None
  else ret (Some request).

(** One element of [metadatas]: a dict with the keys ["value"] and
    ["bitwidth"]. *)
Record Meta := mkMeta { meta_value : Z; bitwidth : Z }.

(** The loop of [PacketOut] over [metadatas], from the counter [i] and
    the list built so far. *)
Fixpoint metadata_loop (metadatas : list Meta) (i : Z)
         (metadata_list : list PacketMetadata)
  : Outcome (list PacketMetadata) :=
  match metadatas with
  | [] => Ret metadata_list
  | meta :: rest =>
      match set_uint32 i with
      | Ret id =>
          match int_to_bytes_big (meta_value meta) (bitwidth meta) with
          | Ret v =>
              metadata_loop rest (i + 1)%Z
                            (metadata_list ++ [mkPacketMetadata id v])
          | Raise e => Raise e
          | Block => Block
          end
      | Raise e => Raise e
      | Block => Block
      end
  end.

Definition PacketOut (payload : bytes) (metadatas : list Meta) : M unit :=
  metadata_list <- lift (metadata_loop metadatas 1%Z []) ;;
  let packet_out := mkPacketOut payload metadata_list in
  let request := req_packet packet_out in
  requests_stream_put (IterableQueue.Msg request).

Definition IdleTimeoutNotification (dry_run : bool) : M (option Proto) :=
  msg <- queue_get timeout_q ;;
  if dry_run then
    print "P4 Runtime PacketIn: " (PPayload msg) ;; ret None
  else ret (Some msg).

(** *** The operation surface *)

(** The methods that take a [dry_run] argument, with their other
    arguments. *)
Inductive Operation : Type :=
| OpMasterArbitrationUpdate
| OpSetForwardingPipelineConfig (p4info : Proto) (kwargs : Kwargs)
| OpWriteTableEntry (table_entry : TableEntry)
| OpDeleteTableEntry (table_entry : TableEntry)
| OpReadTableEntries (table_id : option Z)
| OpReadCounters (counter_id index : option Z)
| OpWritePREEntry (pre_entry : Proto)
| OpPacketIn
| OpIdleTimeoutNotification.

Definition after {A} (m : M A) (w : World) : World := snd (m w).

(** The world after a call of the operation; a generator is iterated to
    its end. *)
Definition exec (classes : string -> PyClass) (op : Operation)
           (dry_run : bool) (w : World) : World :=
  match op with
  | OpMasterArbitrationUpdate => after (MasterArbitrationUpdate dry_run) w
  | OpSetForwardingPipelineConfig p4info kwargs =>
      after (SetForwardingPipelineConfig classes p4info dry_run kwargs) w
  | OpWriteTableEntry e => after (WriteTableEntry e dry_run) w
  | OpDeleteTableEntry e => after (DeleteTableEntry e dry_run) w
  | OpReadTableEntries i => snd (ReadTableEntries i dry_run w)
  | OpReadCounters i j => snd (ReadCounters i j dry_run w)
  | OpWritePREEntry e => after (WritePREEntry e dry_run) w
  | OpPacketIn => after (PacketIn dry_run) w
  | OpIdleTimeoutNotification => after (IdleTimeoutNotification dry_run) w
  end.

Definition is_put (e : Event) : bool :=
  match e with EvPut _ => true | _ => false end.
Definition is_get (e : Event) : bool :=
  match e with EvGet _ => true | _ => false end.
Definition is_call (e : Event) : bool :=
  match e with EvCall _ => true | _ => false end.

Definition count (f : Event -> bool) (tr : list Event) : nat :=
  List.length (filter f tr).

(** Enqueues on the outbound queue, blocking gets and transport calls
    recorded in a world. *)
Definition enqueues (w : World) : nat := count is_put (trace w).
Definition pulls (w : World) : nat := count is_get (trace w).
Definition transport_calls (w : World) : nat := count is_call (trace w).

(** The operation, run dry, enqueues nothing, calls nothing and pulls
    nothing. *)
Definition dry_run_is_silent (classes : string -> PyClass) (op : Operation)
  : Prop :=
  forall w,
    enqueues (exec classes op true w) = enqueues w /\
    transport_calls (exec classes op true w) = transport_calls w /\
    pulls (exec classes op true w) = pulls w /\
    requests_stream (self (exec classes op true w)) = requests_stream (self w) /\
    dispatcher (self (exec classes op true w)) = dispatcher (self w).

Definition pulls_when_dry (op : Operation) : bool :=
  match op with
  | OpPacketIn | OpIdleTimeoutNotification => true
  | _ => false
  end.

(** *** The registry of connections *)

(** The module-level state: the list [connections], with the remote side
    and the trace shared by all connections. *)
Record Process := mkProcess {
  connections : list t;
  remote : Rpc -> Reply;
  log : list Event
}.

(** [SwitchConnection(name, address, device_id, proto_dump_file)] (or a
    subclass [cls] that inherits [__init__]).  With a dump file the
    request logger is created first, which opens the file for writing:
    when the operating system refuses ([refused], see
    [GrpcRequestLogger.create]) the constructor raises, no object exists
    and nothing is registered.  Otherwise the object gets a fresh outbound
    queue and dispatcher and is appended to [connections]. *)
Definition __init__ (refused : string -> option Exn)
           (cls : string) (name : option string) (address : string)
           (device_id : Z) (proto_dump_file : option string)
           (fs : GrpcRequestLogger.FileSystem) (p : Process)
  : Outcome t * GrpcRequestLogger.FileSystem * Process :=
  let c := mk cls name address device_id IterableQueue.empty
              StreamDispatcher.__init__ proto_dump_file in
  let registered := mkProcess (connections p ++ [c]) (remote p) (log p) in
  match proto_dump_file with
  | None => (Ret c, fs, registered)
  | Some path =>
      match GrpcRequestLogger.create refused path fs with
      | (Ret _, fs') => (Ret c, fs', registered)
      | (Raise e, fs') => (Raise e, fs', p)
      | (Block, fs') => (Block, fs', p)
      end
  end.

(** The loop [for c in connections: c.shutdown()]; [c.shutdown()] is the
    method of the class of [c].  An exception leaves the loop. *)
Fixpoint shutdown_loop (classes : string -> PyClass) (cs : list t)
         (remote : Rpc -> Reply) (log : list Event)
  : Outcome unit * list t * list Event :=
  match cs with
  | [] => (Ret tt, [], log)
  | c :: rest =>
      match m_shutdown (classes (cls c)) (mkWorld c remote log) with
      | (Ret _, w') =>
          let '(r, rest', log') :=
            shutdown_loop classes rest remote (trace w') in
          (r, self w' :: rest', log')
      | (Raise e, w') => (Raise e, self w' :: rest, trace w')
      | (Block, w') => (Block, self w' :: rest, trace w')
      end
  end.

Definition ShutdownAllSwitchConnections (classes : string -> PyClass)
           (p : Process) : Outcome unit * Process :=
  let '(r, cs, log') :=
    shutdown_loop classes (connections p) (remote p) (log p) in
  (r, mkProcess cs (remote p) log').

(** The write request an event carries: printed (dry run) or sent. *)
Definition write_request_of (e : Event) : option WriteRequest :=
  match e with
  | EvPrint _ (PWrite r) => Some r
  | EvCall (RpcWrite r) => Some r
  | _ => None
  end.

Definition stopped (c : t) : bool :=
  negb (StreamDispatcher.running (dispatcher c)).

(** A connection as [SwitchConnection.shutdown] leaves it: the sentinel at
    the end of the outbound queue, the dispatcher's flag cleared. *)
Definition shut_down (c : t) : t :=
  with_dispatcher
    (with_requests_stream c (IterableQueue.close (requests_stream c)))
    (StreamDispatcher.stop (dispatcher c)).

(** The class of the connection inherits [shutdown] from
    [SwitchConnection]. *)
Definition inherits_shutdown (classes : string -> PyClass) (c : t) : Prop :=
  m_shutdown (classes (cls c)) = shutdown.

End SwitchConnection.

(** ** Concrete classes, processes and worlds used in the examples *)

Module Scenario.

Import SwitchConnection.

(** Every class name resolves to [SwitchConnection] itself. *)
Definition base_classes (cls : string) : PyClass := SwitchConnection_class.

(** A subclass whose [shutdown] raises. *)
Definition failing_shutdown : M unit :=
  lift (Raise (RuntimeError "shutdown failed")).

Definition classes_with_failing (cls : string) : PyClass :=
  if String.eqb cls "FailingConnection"
  then mkClass buildDeviceConfig failing_shutdown
  else SwitchConnection_class.

(** A remote side that answers every call with one empty response. *)
Definition quiet_remote (c : Rpc) : Reply := mkReply [[]] None.

Definition empty_process : Process := mkProcess [] quiet_remote [].

(** An empty file system, on which every file can be opened. *)
Definition empty_fs : GrpcRequestLogger.FileSystem :=
  GrpcRequestLogger.mkFS (fun _ => None) [].

Definition openable (path : string) : option Exn := None.

(** The registry after a construction without dump file. *)
Definition construct (cls : string) (name : option string) (address : string)
           (device_id : Z) (p : Process) : Process :=
  snd (__init__ openable cls name address device_id None empty_fs p).

(** Two connections made by the constructor: the first of the failing
    subclass, the second a plain [SwitchConnection]. *)
Definition failing_then_plain : Process :=
  construct "SwitchConnection" (Some "s2") "127.0.0.1:50052" 1
    (construct "FailingConnection" (Some "s1") "127.0.0.1:50051" 0
       empty_process).

(** Three plain connections. *)
Definition three_plain : Process :=
  construct "SwitchConnection" (Some "s3") "127.0.0.1:50053" 2
    (construct "SwitchConnection" (Some "s2") "127.0.0.1:50052" 1
      (construct "SwitchConnection" (Some "s1") "127.0.0.1:50051" 0
         empty_process)).

(** A fresh connection (the first one registered by its constructor), and
    the same connection once its dispatcher has routed two packets and one
    idle-timeout notification. *)
Definition fresh : t :=
  hd (mk "" None "" 0 [] StreamDispatcher.__init__ None)
     (connections
        (construct "SwitchConnection" (Some "s1") "127.0.0.1:50051" 0
           empty_process)).

Definition inbound : list StreamMessageResponse :=
  [resp_packet [x0a]; resp_idle_timeout_notification [x0b]; resp_packet [x0c]].

Definition busy : t :=
  with_dispatcher fresh
    (fst (StreamDispatcher._dispatch_loop inbound (dispatcher fresh) [])).

Definition fresh_world : World := mkWorld fresh quiet_remote [].
Definition busy_world : World := mkWorld busy quiet_remote [].

(** A body of 1024 rendered characters. *)
Definition body_1024 : string :=
  String.concat "" (repeat "a" 1024).

(** A logger created on the empty file system. *)
Definition dump_file : string := "logs/s1-p4runtime-requests.txt".

Definition logger : GrpcRequestLogger.t :=
  fst (GrpcRequestLogger.__init__ dump_file empty_fs).

Definition logger_fs : GrpcRequestLogger.FileSystem :=
  snd (GrpcRequestLogger.__init__ dump_file empty_fs).

Definition clock : string := "2024-05-06 07:08:09.123456".

End Scenario.

(** ** Callers and observations, to state how the operations compose *)

Module Client.

Import SwitchConnection.

(** A metadata field on which the [to_bytes] call of [PacketOut]
    returns. *)
Definition encodes (m : Meta) : Prop :=
  exists bs, int_to_bytes_big (meta_value m) (bitwidth m) = Ret bs.

(** The device id of the connection can be assigned to a uint64 field. *)
Definition device_id_in_range (w : World) : Prop :=
  (0 <= device_id (self w) < 2 ^ 64)%Z.

(** [n] successive calls of a method by one caller, collecting what they
    return; the first call that raises or blocks ends the sequence. *)
Fixpoint calls {A : Type} (m : M A) (n : nat) : M (list A) :=
  match n with
  | O => ret []
  | S k => bind m (fun a => bind (calls m k) (fun l => ret (a :: l)))
  end.

(** The events performed from world [w] to world [w']. *)
Definition new_events (w w' : World) : list Event :=
  skipn (List.length (trace w)) (trace w').

(** The object an event shows, enqueues or sends. *)
Definition carried (e : Event) : option Printable :=
  match e with
  | EvPrint _ obj => Some obj
  | EvPut (IterableQueue.Msg r) => Some (PStreamRequest r)
  | EvPut IterableQueue.Sentinel => None
  | EvGet _ => None
  | EvCall (RpcSetForwardingPipelineConfig r) =>
      Some (PSetForwardingPipelineConfig r)
  | EvCall (RpcWrite r) => Some (PWrite r)
  | EvCall (RpcRead r) => Some (PRead r)
  end.

(** The delivery queue an operation calls [get] on, if any. *)
Definition pulled_queue (op : Operation) : option QueueName :=
  match op with
  | OpMasterArbitrationUpdate => Some arbitration_q
  | OpPacketIn => Some packet_in_q
  | OpIdleTimeoutNotification => Some timeout_q
  | _ => None
  end.

(** Name, address and device id of a connection. *)
Definition identity (c : t) : option string * string * Z :=
  (name c, address c, device_id c).

(** The record [log_message] writes for one call. *)
Definition record_for {Body : Type} (str : Body -> string)
           (c : GrpcRequestLogger.Call Body) : string :=
  let '(now, method_name, body) := c in
  GrpcRequestLogger.record_of (drop_last3 now) method_name
    (if (String.length (str body) <? GrpcRequestLogger.MSG_LOG_MAX_LEN)%nat
     then str body
     else GrpcRequestLogger.too_long (String.length (str body))).

(** A connection whose dispatcher has routed the stream [s] since its
    construction. *)
Definition after_inbound (c : t) (s : list StreamMessageResponse) : t :=
  with_dispatcher c
    (fst (StreamDispatcher._dispatch_loop s (dispatcher c) [])).

End Client.

(** * Properties *)

(** ** The outbound queue *)

Section OutboundQueue.

Import IterableQueue.

Lemma puts_app (ms : list StreamMessageRequest) (q : t) :
  puts q ms = q ++ map Msg ms.
Proof.
  unfold puts.
  revert q; induction ms as [|m ms IH]; intros q; cbn [fold_left map].
  - now rewrite app_nil_r.
  - rewrite IH. unfold put. now rewrite <- app_assoc.
Qed.

(** The loop hands over the messages put before the sentinel and ends
    when the sentinel comes out; what was put after the sentinel stays
    in the queue. *)
Lemma consume_upto_sentinel (ms : list StreamMessageRequest) (rest : t)
      (extra : nat) :
  consume (S (List.length ms) + extra) __iter__ (map Msg ms ++ Sentinel :: rest)
  = (ms, Finished, mkIterator true, rest).
Proof.
  induction ms as [|m ms IH].
  - reflexivity.
  - change (consume (S (List.length (m :: ms)) + extra) __iter__
                    (map Msg (m :: ms) ++ Sentinel :: rest))
      with (let '(ms', e, it'', q'') :=
              consume (S (List.length ms) + extra) __iter__
                      (map Msg ms ++ Sentinel :: rest) in
            (m :: ms', e, it'', q'')).
    now rewrite IH.
Qed.

(** Without a sentinel the consumer is handed every message and then
    waits inside [get]. *)
Lemma consume_open_queue (ms : list StreamMessageRequest) (extra : nat) :
  consume (S (List.length ms) + extra) __iter__ (map Msg ms)
  = (ms, Waiting, __iter__, []).
Proof.
  induction ms as [|m ms IH].
  - reflexivity.
  - change (consume (S (List.length (m :: ms)) + extra) __iter__
                    (map Msg (m :: ms)))
      with (let '(ms', e, it'', q'') :=
              consume (S (List.length ms) + extra) __iter__ (map Msg ms) in
            (m :: ms', e, it'', q'')).
    now rewrite IH.
Qed.

(** An exhausted iterator never calls [get] again. *)
Lemma next_exhausted (q : t) :
  next (mkIterator true) q = (StopIteration, mkIterator true, q).
Proof. reflexivity. Qed.

End OutboundQueue.

(** C5. For every sequence of puts onto an empty outbound queue followed
    by [close()], iterating the queue (with any number of steps beyond the
    number of messages) yields exactly the messages put, in the order they
    were put, and ends with StopIteration when the sentinel is dequeued:
    the sentinel is not among the values yielded, the queue is left empty
    and the iterator stays exhausted. *)
Theorem outbound_queue_fifo_until_close :
  forall (ms : list StreamMessageRequest) (extra : nat),
    IterableQueue.consume (S (List.length ms) + extra) IterableQueue.__iter__
      (IterableQueue.close (IterableQueue.puts IterableQueue.empty ms))
    = (ms, IterableQueue.Finished, IterableQueue.mkIterator true, [])
    /\ forall q, IterableQueue.next (IterableQueue.mkIterator true) q
                 = (IterableQueue.StopIteration, IterableQueue.mkIterator true, q).
Proof.
  intros ms extra. split.
  - unfold IterableQueue.close, IterableQueue.put.
    rewrite puts_app. simpl.
    apply consume_upto_sentinel.
  - intros q. apply next_exhausted.
Qed.

(** ** The dispatch loop *)

Section Dispatch.

Import StreamDispatcher.

Lemma route_running msg d out : running (fst (route msg d out)) = running d.
Proof.
  unfold route.
  destruct (HasField msg "arbitration"); [reflexivity|].
  destruct (HasField msg "packet"); [reflexivity|].
  destruct (HasField msg "idle_timeout_notification"); [reflexivity|].
  destruct (HasField msg "error"); reflexivity.
Qed.

(** The loop over a concatenation is the loop over the first part
    followed by the loop over the second. *)
Lemma dispatch_loop_app s1 s2 d out :
  _dispatch_loop (s1 ++ s2) d out
  = let '(d1, out1) := _dispatch_loop s1 d out in _dispatch_loop s2 d1 out1.
Proof.
  revert d out; induction s1 as [|m s1 IH]; intros d out; simpl.
  - reflexivity.
  - destruct (running d) eqn:R; simpl.
    + destruct (route m d out) as [d' out']. apply IH.
    + destruct s2; simpl; [reflexivity | now rewrite R].
Qed.

(** What is printed does not influence what is queued. *)
Lemma dispatch_loop_out_irrelevant s d out out' :
  fst (_dispatch_loop s d out) = fst (_dispatch_loop s d out').
Proof.
  revert d out out'; induction s as [|m s IH]; intros d out out'; simpl.
  - reflexivity.
  - destruct (running d); simpl; [|reflexivity].
    assert (E : fst (route m d out) = fst (route m d out')).
    { unfold route.
      destruct (HasField m "arbitration"); [reflexivity|].
      destruct (HasField m "packet"); [reflexivity|].
      destruct (HasField m "idle_timeout_notification"); [reflexivity|].
      destruct (HasField m "error"); reflexivity. }
    destruct (route m d out) as [d1 o1], (route m d out') as [d2 o2].
    simpl in E. subst d2. apply IH.
Qed.

(** One message: the payload goes to the queue of its variant and to no
    other. *)
Lemma route_queues msg d out :
  let d' := fst (route msg d out) in
  arbitration_queue d' = arbitration_queue d ++ arbitrations [msg] /\
  packet_in_queue d' = packet_in_queue d ++ packets [msg] /\
  timeout_queue d' = timeout_queue d ++ idle_timeouts [msg] /\
  error_queue d' = error_queue d ++ errors [msg] /\
  queued d' = queued d + (if well_formed msg then 1 else 0).
Proof.
  destruct msg; cbn; unfold queued; cbn;
    rewrite ?app_nil_r, ?length_app; cbn; repeat split; lia.
Qed.

End Dispatch.

(** C4. For every finite sequence of inbound messages processed by the
    dispatch loop of a running dispatcher (no stop requested), each of the
    four delivery queues receives, after what it already held, exactly the
    payloads of its own variant in their arrival order, and the number of
    queued payloads grows by one for each message that has one of the four
    variants set. *)
Theorem dispatch_loop_demultiplexes :
  forall (stream : list StreamMessageResponse) (d : StreamDispatcher.t)
         (out : list StreamDispatcher.Diagnostic),
    StreamDispatcher.running d = true ->
    let d' := fst (StreamDispatcher._dispatch_loop stream d out) in
    StreamDispatcher.arbitration_queue d'
      = StreamDispatcher.arbitration_queue d ++ StreamDispatcher.arbitrations stream /\
    StreamDispatcher.packet_in_queue d'
      = StreamDispatcher.packet_in_queue d ++ StreamDispatcher.packets stream /\
    StreamDispatcher.timeout_queue d'
      = StreamDispatcher.timeout_queue d ++ StreamDispatcher.idle_timeouts stream /\
    StreamDispatcher.error_queue d'
      = StreamDispatcher.error_queue d ++ StreamDispatcher.errors stream /\
    StreamDispatcher.queued d'
      = StreamDispatcher.queued d
        + List.length (filter StreamDispatcher.well_formed stream).
Proof.
  induction stream as [|m s IH]; intros d out R.
  - cbn. rewrite !app_nil_r. repeat split; lia.
  - cbn -[StreamDispatcher.route StreamDispatcher.well_formed].
    rewrite R. cbn -[StreamDispatcher.route StreamDispatcher.well_formed].
    pose proof (route_queues m d out) as Q.
    pose proof (route_running m d out) as R'.
    destruct (StreamDispatcher.route m d out) as [d1 out1].
    cbn -[StreamDispatcher.well_formed] in Q, R'. rewrite R in R'.
    specialize (IH d1 out1 R').
    cbn -[StreamDispatcher.well_formed] in IH.
    destruct Q as (Qa & Qp & Qt & Qe & Qn).
    destruct IH as (Ia & Ip & It & Ie & In).
    rewrite Ia, Ip, It, Ie, In, Qa, Qp, Qt, Qe, Qn.
    unfold StreamDispatcher.arbitrations, StreamDispatcher.packets,
      StreamDispatcher.idle_timeouts, StreamDispatcher.errors.
    cbn -[StreamDispatcher.well_formed].
    rewrite !app_nil_r, <- !app_assoc.
    repeat split.
    destruct (StreamDispatcher.well_formed m); cbn; lia.
Qed.

Lemma dispatch_loop_demultiplexes_witness :
  let stream := [resp_packet [x01]; resp_not_set; resp_arbitration [x02];
                 resp_packet [x03]; resp_digest [x04]; resp_error [x05];
                 resp_idle_timeout_notification [x06]] in
  let d' := fst (StreamDispatcher._dispatch_loop stream
                   StreamDispatcher.__init__ []) in
  StreamDispatcher.arbitration_queue d' = [[x02]] /\
  StreamDispatcher.packet_in_queue d' = [[x01]; [x03]] /\
  StreamDispatcher.timeout_queue d' = [[x06]] /\
  StreamDispatcher.error_queue d' = [[x05]] /\
  StreamDispatcher.queued d' = 5.
Proof.
  exact (dispatch_loop_demultiplexes
           [resp_packet [x01]; resp_not_set; resp_arbitration [x02];
            resp_packet [x03]; resp_digest [x04]; resp_error [x05];
            resp_idle_timeout_notification [x06]]
           StreamDispatcher.__init__ [] eq_refl).
Defined.

Section DispatchAnomaly.

Import StreamDispatcher.

Lemma dispatch_loop_running s d out :
  running (fst (_dispatch_loop s d out)) = running d.
Proof.
  revert d out; induction s as [|m s IH]; intros d out; simpl.
  - reflexivity.
  - destruct (running d) eqn:R; simpl; [|exact R].
    pose proof (route_running m d out) as R'.
    destruct (route m d out) as [d1 out1]. simpl in R'.
    rewrite IH, R'. exact R.
Qed.

Lemma route_unknown msg d out :
  well_formed msg = false ->
  route msg d out = (d, out ++ [("Unknown StreamMessageResponse:", msg)]).
Proof.
  unfold well_formed, route. intros H.
  apply orb_false_iff in H; destruct H as [H He].
  apply orb_false_iff in H; destruct H as [H Ht].
  apply orb_false_iff in H; destruct H as [Ha Hp].
  now rewrite Ha, Hp, Ht, He.
Qed.

End DispatchAnomaly.

(** C6. For every inbound message with none of the four variants
    populated that a running dispatcher processes: the message is reported
    on the output ("Unknown StreamMessageResponse:") and the dispatcher,
    with its four delivery queues, is unchanged, so nothing reaches a
    caller blocked on a queue; the loop goes on with the messages that
    follow, and the queues end up as if the message had not been in the
    stream. *)
Theorem unknown_message_is_dropped :
  forall (pre post : list StreamMessageResponse) (msg : StreamMessageResponse)
         (d : StreamDispatcher.t) (out : list StreamDispatcher.Diagnostic),
    StreamDispatcher.running d = true ->
    StreamDispatcher.well_formed msg = false ->
    StreamDispatcher.route msg d out
      = (d, out ++ [("Unknown StreamMessageResponse:", msg)]) /\
    StreamDispatcher._dispatch_loop (pre ++ msg :: post) d out
      = (let '(d1, out1) := StreamDispatcher._dispatch_loop pre d out in
         StreamDispatcher._dispatch_loop post d1
           (out1 ++ [("Unknown StreamMessageResponse:", msg)])) /\
    fst (StreamDispatcher._dispatch_loop (pre ++ msg :: post) d out)
      = fst (StreamDispatcher._dispatch_loop (pre ++ post) d out).
Proof.
  intros pre post msg d out R U.
  assert (Step :
    StreamDispatcher._dispatch_loop (pre ++ msg :: post) d out
    = (let '(d1, out1) := StreamDispatcher._dispatch_loop pre d out in
       StreamDispatcher._dispatch_loop post d1
         (out1 ++ [("Unknown StreamMessageResponse:", msg)]))).
  { rewrite dispatch_loop_app.
    pose proof (dispatch_loop_running pre d out) as R1.
    destruct (StreamDispatcher._dispatch_loop pre d out) as [d1 out1].
    simpl in R1. rewrite R in R1.
    cbn -[StreamDispatcher.route]. rewrite R1.
    cbn -[StreamDispatcher.route].
    now rewrite (route_unknown msg d1 out1 U). }
  split; [apply route_unknown; exact U|].
  split; [exact Step|].
  rewrite Step, dispatch_loop_app.
  destruct (StreamDispatcher._dispatch_loop pre d out) as [d1 out1].
  apply dispatch_loop_out_irrelevant.
Qed.

Lemma unknown_message_is_dropped_witness :
  fst (StreamDispatcher._dispatch_loop
         ([resp_packet [x01]] ++ resp_digest [x09] :: [resp_error [x02]])
         StreamDispatcher.__init__ [])
  = fst (StreamDispatcher._dispatch_loop
           ([resp_packet [x01]] ++ [resp_error [x02]])
           StreamDispatcher.__init__ []).
Proof.
  exact (proj2 (proj2 (unknown_message_is_dropped
                         [resp_packet [x01]] [resp_error [x02]]
                         (resp_digest [x09]) StreamDispatcher.__init__ []
                         eq_refl eq_refl))).
Defined.

(** ** Connection operations *)

Section ConnectionFacts.

Import SwitchConnection.

Lemma set_field_cases (lo hi v : Z) :
  ((lo <= v <= hi)%Z /\ set_field lo hi v = Ret v)
  \/ (~ (lo <= v <= hi)%Z
      /\ set_field lo hi v
         = Raise (ValueError ("Value out of range: " ++ fmt_int v))).
Proof.
  unfold set_field.
  destruct (Z.leb_spec lo v), (Z.leb_spec v hi); cbn;
    first [left; split; [lia | reflexivity] | right; split; [lia | reflexivity]].
Qed.

Lemma set_uint64_in_range (v : Z) :
  (0 <= v < 2 ^ 64)%Z -> set_uint64 v = Ret v.
Proof.
  intros H. unfold set_uint64.
  destruct (set_field_cases 0 (2 ^ 64 - 1) v) as [[_ E] | [N _]];
    [exact E | lia].
Qed.

Lemma set_uint64_outside (v : Z) :
  ~ (0 <= v < 2 ^ 64)%Z ->
  set_uint64 v = Raise (ValueError ("Value out of range: " ++ fmt_int v)).
Proof.
  intros H. unfold set_uint64.
  destruct (set_field_cases 0 (2 ^ 64 - 1) v) as [[R _] | [_ E]];
    [lia | exact E].
Qed.

Lemma set_field_not_block (lo hi v : Z) : set_field lo hi v <> Block.
Proof.
  destruct (set_field_cases lo hi v) as [[_ E] | [_ E]]; rewrite E; discriminate.
Qed.

Lemma set_field_ret (lo hi v id : Z) : set_field lo hi v = Ret id -> id = v.
Proof.
  destruct (set_field_cases lo hi v) as [[_ E] | [_ E]]; rewrite E;
    intros H; [now injection H | discriminate H].
Qed.

Lemma count_app f (tr1 tr2 : list Event) :
  count f (tr1 ++ tr2) = count f tr1 + count f tr2.
Proof. unfold count. now rewrite filter_app, length_app. Qed.

(** Printing leaves the connection alone. *)
Lemma print_spec text obj w :
  print text obj w
  = (Ret tt, mkWorld (self w) (stub w) (trace w ++ [EvPrint text obj])).
Proof. reflexivity. Qed.

Lemma call_trace c w :
  trace (after (call c) w) = trace w ++ [EvCall c]
  /\ self (after (call c) w) = self w.
Proof.
  unfold after, call, bind, emit, lift, ret. cbn.
  destruct (failure (stub w c)); cbn; auto.
Qed.

(** A blocking get takes the oldest payload of its queue, or blocks. *)
Lemma queue_get_spec q w :
  queue_get q w
  = match queue_of q (dispatcher (self w)) with
    | [] => (Block, mkWorld (self w) (stub w) (trace w ++ [EvGet q]))
    | p :: rest =>
        (Ret p,
         mkWorld (with_dispatcher (self w) (set_queue q rest (dispatcher (self w))))
                 (stub w) (trace w ++ [EvGet q]))
    end.
Proof.
  unfold queue_get, bind, emit, get_self, lift, set_self, ret. cbn.
  destruct (queue_of q (dispatcher (self w))); reflexivity.
Qed.

Lemma shutdown_spec w :
  shutdown w
  = (Ret tt,
     mkWorld
       (mk (cls (self w)) (name (self w)) (address (self w))
           (device_id (self w))
           (requests_stream (self w) ++ [IterableQueue.Sentinel])
           (StreamDispatcher.stop (dispatcher (self w)))
           (proto_dump_file (self w)))
       (stub w) (trace w ++ [EvPut IterableQueue.Sentinel])).
Proof. reflexivity. Qed.

Lemma shutdown_again n w :
  let w1 := after shutdown w in
  Nat.iter n (after shutdown) w1
  = mkWorld
      (with_requests_stream (self w1)
         (requests_stream (self w1) ++ repeat IterableQueue.Sentinel n))
      (stub w1) (trace w1 ++ repeat (EvPut IterableQueue.Sentinel) n).
Proof.
  induction n as [|n IH]; cbn zeta in *.
  - cbn. now rewrite !app_nil_r.
  - rewrite Nat.iter_succ, IH. unfold after at 1. rewrite shutdown_spec.
    cbn. unfold with_requests_stream. cbn.
    rewrite <- !app_assoc.
    replace (repeat IterableQueue.Sentinel n ++ [IterableQueue.Sentinel])
      with (repeat IterableQueue.Sentinel (S n))
      by (rewrite <- repeat_cons; reflexivity).
    replace (repeat (EvPut IterableQueue.Sentinel) n ++ [EvPut IterableQueue.Sentinel])
      with (repeat (EvPut IterableQueue.Sentinel) (S n))
      by (rewrite <- repeat_cons; reflexivity).
    reflexivity.
Qed.

End ConnectionFacts.

(** C7. For every table entry, on a connection whose device id is in
    the range of a uint64 field, with or without dry run, WriteTableEntry
    builds (and prints or sends, as its only effect) a write request that
    holds exactly one update, for that entry, whose type is MODIFY exactly
    when the entry is a default action and INSERT otherwise;
    DeleteTableEntry builds a write request that holds exactly one update,
    for that entry, of type DELETE. *)
Theorem table_write_requests_have_one_update :
  forall (table_entry : TableEntry) (dry_run : bool) (w : SwitchConnection.World),
    (0 <= SwitchConnection.device_id (SwitchConnection.self w) < 2 ^ 64)%Z ->
    (exists e req u,
        SwitchConnection.trace
          (SwitchConnection.after
             (SwitchConnection.WriteTableEntry table_entry dry_run) w)
        = SwitchConnection.trace w ++ [e] /\
        SwitchConnection.write_request_of e = Some req /\
        SwitchConnection.is_call e = negb dry_run /\
        updates req = [u] /\
        entity u = entity_table_entry table_entry /\
        (type u = MODIFY <-> is_default_action table_entry = true) /\
        (type u = INSERT <-> is_default_action table_entry = false)) /\
    (exists e req u,
        SwitchConnection.trace
          (SwitchConnection.after
             (SwitchConnection.DeleteTableEntry table_entry dry_run) w)
        = SwitchConnection.trace w ++ [e] /\
        SwitchConnection.write_request_of e = Some req /\
        SwitchConnection.is_call e = negb dry_run /\
        updates req = [u] /\
        entity u = entity_table_entry table_entry /\
        type u = DELETE).
Proof.
  intros te dry w H. split.
  - exists (if dry
            then SwitchConnection.EvPrint "P4Runtime Write:"
                   (SwitchConnection.PWrite
                      (mkWriteRequest
                         (SwitchConnection.device_id (SwitchConnection.self w))
                         SwitchConnection.election_id_1
                         [mkUpdate (if is_default_action te then MODIFY else INSERT)
                                   (entity_table_entry te)]))
            else SwitchConnection.EvCall
                   (SwitchConnection.RpcWrite
                      (mkWriteRequest
                         (SwitchConnection.device_id (SwitchConnection.self w))
                         SwitchConnection.election_id_1
                         [mkUpdate (if is_default_action te then MODIFY else INSERT)
                                   (entity_table_entry te)]))),
      (mkWriteRequest
         (SwitchConnection.device_id (SwitchConnection.self w))
         SwitchConnection.election_id_1
         [mkUpdate (if is_default_action te then MODIFY else INSERT)
                   (entity_table_entry te)]),
      (mkUpdate (if is_default_action te then MODIFY else INSERT)
                (entity_table_entry te)).
    split.
    + unfold SwitchConnection.WriteTableEntry, SwitchConnection.after,
        SwitchConnection.bind, SwitchConnection.get_self, SwitchConnection.lift.
      rewrite (set_uint64_in_range _ H).
      destruct dry; [reflexivity|].
      apply (proj1 (call_trace _ w)).
    + destruct dry; cbn; repeat split; try reflexivity;
        destruct (is_default_action te); intros; congruence.
  - exists (if dry
            then SwitchConnection.EvPrint "P4Runtime Write:"
                   (SwitchConnection.PWrite
                      (mkWriteRequest
                         (SwitchConnection.device_id (SwitchConnection.self w))
                         SwitchConnection.election_id_1
                         [mkUpdate DELETE (entity_table_entry te)]))
            else SwitchConnection.EvCall
                   (SwitchConnection.RpcWrite
                      (mkWriteRequest
                         (SwitchConnection.device_id (SwitchConnection.self w))
                         SwitchConnection.election_id_1
                         [mkUpdate DELETE (entity_table_entry te)]))),
      (mkWriteRequest
         (SwitchConnection.device_id (SwitchConnection.self w))
         SwitchConnection.election_id_1
         [mkUpdate DELETE (entity_table_entry te)]),
      (mkUpdate DELETE (entity_table_entry te)).
    split.
    + unfold SwitchConnection.DeleteTableEntry, SwitchConnection.after,
        SwitchConnection.bind, SwitchConnection.get_self, SwitchConnection.lift.
      rewrite (set_uint64_in_range _ H).
      destruct dry; [reflexivity|].
      apply (proj1 (call_trace _ w)).
    + destruct dry; cbn; repeat split; reflexivity.
Qed.

Lemma table_write_requests_have_one_update_witness :
  (exists e req u,
      SwitchConnection.trace
        (SwitchConnection.after
           (SwitchConnection.WriteTableEntry (mkTableEntry 7 true [x01]) false)
           Scenario.busy_world)
      = SwitchConnection.trace Scenario.busy_world ++ [e] /\
      SwitchConnection.write_request_of e = Some req /\
      SwitchConnection.is_call e = negb false /\
      updates req = [u] /\
      entity u = entity_table_entry (mkTableEntry 7 true [x01]) /\
      (type u = MODIFY <-> is_default_action (mkTableEntry 7 true [x01]) = true) /\
      (type u = INSERT <-> is_default_action (mkTableEntry 7 true [x01]) = false))
  /\ (exists e req u,
        SwitchConnection.trace
          (SwitchConnection.after
             (SwitchConnection.DeleteTableEntry (mkTableEntry 7 false [x01]) true)
             Scenario.fresh_world)
        = SwitchConnection.trace Scenario.fresh_world ++ [e] /\
        SwitchConnection.write_request_of e = Some req /\
        SwitchConnection.is_call e = negb true /\
        updates req = [u] /\
        entity u = entity_table_entry (mkTableEntry 7 false [x01]) /\
        type u = DELETE).
Proof.
  split.
  - apply (proj1 (table_write_requests_have_one_update
                    (mkTableEntry 7 true [x01]) false Scenario.busy_world
                    (conj (proj1 (Z.leb_le 0 0) eq_refl)
                          (proj1 (Z.ltb_lt 0 (2 ^ 64)) eq_refl)))).
  - apply (proj2 (table_write_requests_have_one_update
                    (mkTableEntry 7 false [x01]) true Scenario.fresh_world
                    (conj (proj1 (Z.leb_le 0 0) eq_refl)
                          (proj1 (Z.ltb_lt 0 (2 ^ 64)) eq_refl)))).
Defined.

(** C9. For every call of PacketIn (respectively IdleTimeoutNotification)
    with dry run on a connection whose packet-in (respectively timeout)
    queue is not empty: the call performs a blocking get that removes the
    oldest payload from the queue, prints it and returns None; the payload
    is gone from the queue, and a later call without dry run gets the next
    payload, or blocks if there is none. *)
Theorem dry_run_pull_consumes_payload :
  forall (w : SwitchConnection.World) (p : Proto) (rest : list Proto),
    (StreamDispatcher.packet_in_queue
       (SwitchConnection.dispatcher (SwitchConnection.self w)) = p :: rest ->
     let w' := SwitchConnection.after (SwitchConnection.PacketIn true) w in
     fst (SwitchConnection.PacketIn true w) = Ret None /\
     StreamDispatcher.packet_in_queue
       (SwitchConnection.dispatcher (SwitchConnection.self w')) = rest /\
     SwitchConnection.trace w'
       = SwitchConnection.trace w
         ++ [SwitchConnection.EvGet SwitchConnection.packet_in_q;
             SwitchConnection.EvPrint "P4 Runtime PacketIn: "
               (SwitchConnection.PPayload p)] /\
     fst (SwitchConnection.PacketIn false w')
       = match rest with
         | [] => Block
         | p' :: _ => Ret (Some p')
         end) /\
    (StreamDispatcher.timeout_queue
       (SwitchConnection.dispatcher (SwitchConnection.self w)) = p :: rest ->
     let w' := SwitchConnection.after
                 (SwitchConnection.IdleTimeoutNotification true) w in
     fst (SwitchConnection.IdleTimeoutNotification true w) = Ret None /\
     StreamDispatcher.timeout_queue
       (SwitchConnection.dispatcher (SwitchConnection.self w')) = rest /\
     SwitchConnection.trace w'
       = SwitchConnection.trace w
         ++ [SwitchConnection.EvGet SwitchConnection.timeout_q;
             SwitchConnection.EvPrint "P4 Runtime PacketIn: "
               (SwitchConnection.PPayload p)] /\
     fst (SwitchConnection.IdleTimeoutNotification false w')
       = match rest with
         | [] => Block
         | p' :: _ => Ret (Some p')
         end).
Proof.
  intros w p rest. split; intros H w'; subst w'.
  - unfold SwitchConnection.after, SwitchConnection.PacketIn,
      SwitchConnection.bind.
    rewrite queue_get_spec. cbn [SwitchConnection.queue_of]. rewrite H.
    cbn. rewrite <- app_assoc. repeat split.
    destruct rest; reflexivity.
  - unfold SwitchConnection.after, SwitchConnection.IdleTimeoutNotification,
      SwitchConnection.bind.
    rewrite queue_get_spec. cbn [SwitchConnection.queue_of]. rewrite H.
    cbn. rewrite <- app_assoc. repeat split.
    destruct rest; reflexivity.
Qed.

Lemma dry_run_pull_consumes_payload_witness :
  fst (SwitchConnection.PacketIn false
         (SwitchConnection.after (SwitchConnection.PacketIn true)
            Scenario.busy_world))
  = Ret (Some [x0c])
  /\ fst (SwitchConnection.IdleTimeoutNotification false
            (SwitchConnection.after (SwitchConnection.IdleTimeoutNotification true)
               Scenario.busy_world))
     = Block.
Proof.
  split.
  - exact (proj2 (proj2 (proj2
      (proj1 (dry_run_pull_consumes_payload Scenario.busy_world [x0a] [[x0c]])
             eq_refl)))).
  - exact (proj2 (proj2 (proj2
      (proj2 (dry_run_pull_consumes_payload Scenario.busy_world [x0b] [])
             eq_refl)))).
Defined.

(** C10. For every connection, every call of shutdown returns without
    raising, whatever the number of earlier calls; after the first call
    the dispatcher is stopped, and each further call leaves the connection
    as the first call left it apart from one more close sentinel at the
    end of the outbound queue. *)
Theorem repeated_shutdown_is_safe :
  forall (w : SwitchConnection.World) (n : nat),
    let w1 := SwitchConnection.after SwitchConnection.shutdown w in
    let wn := Nat.iter n (SwitchConnection.after SwitchConnection.shutdown) w1 in
    fst (SwitchConnection.shutdown w) = Ret tt /\
    fst (SwitchConnection.shutdown wn) = Ret tt /\
    SwitchConnection.stopped (SwitchConnection.self w1) = true /\
    SwitchConnection.self wn
      = SwitchConnection.with_requests_stream (SwitchConnection.self w1)
          (SwitchConnection.requests_stream (SwitchConnection.self w1)
           ++ repeat IterableQueue.Sentinel n) /\
    SwitchConnection.trace wn
      = SwitchConnection.trace w1
        ++ repeat (SwitchConnection.EvPut IterableQueue.Sentinel) n.
Proof.
  intros w n w1 wn. subst wn.
  pose proof (shutdown_again n w) as E. cbn zeta in E. fold w1 in E.
  rewrite E. repeat split.
Qed.

(** ** Dry run *)

(** C1, as stated, fails: PacketIn takes a dry-run flag, and a dry run of
    it on a connection with queued packets performs a blocking get. *)
Lemma dry_run_not_silent_on_every_operation :
  ~ (forall op : SwitchConnection.Operation,
        SwitchConnection.dry_run_is_silent Scenario.base_classes op).
Proof.
  intros H.
  destruct (H SwitchConnection.OpPacketIn Scenario.busy_world)
    as (_ & _ & P & _).
  vm_compute in P. discriminate P.
Qed.

Section DryRun.

Import SwitchConnection.

Lemma printed_only_counts (w w' : World) text obj :
  trace w' = trace w ++ [EvPrint text obj] ->
  enqueues w' = enqueues w /\ transport_calls w' = transport_calls w
  /\ pulls w' = pulls w.
Proof.
  intros E. unfold enqueues, transport_calls, pulls.
  rewrite E, !count_app. cbn. repeat split; lia.
Qed.

Lemma silent_when_printing classes op :
  (forall w, exists text obj,
      exec classes op true w
      = mkWorld (self w) (stub w) (trace w ++ [EvPrint text obj])
      \/ exec classes op true w = w) ->
  dry_run_is_silent classes op.
Proof.
  intros H w. destruct (H w) as (text & obj & [E | E]); rewrite E.
  - destruct (printed_only_counts w
                (mkWorld (self w) (stub w) (trace w ++ [EvPrint text obj]))
                text obj eq_refl) as (A & B & C).
    repeat split; assumption.
  - repeat split.
Qed.

(** A dry run of an operation that does not pull either prints one
    object or, when building the request raises, does nothing. *)
Lemma dry_exec_prints_or_nothing classes op :
  pulls_when_dry op = false ->
  dry_run_is_silent classes op.
Proof.
  intros P. apply silent_when_printing. intros w.
  destruct op; try discriminate P; cbn [exec];
    unfold after, MasterArbitrationUpdate, SetForwardingPipelineConfig,
      WriteTableEntry, DeleteTableEntry, WritePREEntry, ReadTableEntries,
      ReadCounters, gen_lift, print_or_read, bind, get_self, lift;
    repeat match goal with
           | |- context [m_buildDeviceConfig ?c ?k] =>
               destruct (m_buildDeviceConfig c k)
           | |- context [set_uint64 ?x] => destruct (set_uint64 x)
           | |- context [set_uint32 ?x] => destruct (set_uint32 x)
           | |- context [set_int64 ?x] => destruct (set_int64 x)
           | |- context [match ?i with Some _ => _ | None => _ end] =>
               is_var i; destruct i
           end;
    first [ eexists _, _; left; reflexivity
          | exists "", (PPayload []); right; reflexivity
          | exists "", (PPayload []); right; now destruct w ].
Qed.

End DryRun.

(** C1 (amended). Every operation that takes a dry-run flag, other than
    PacketIn and IdleTimeoutNotification, when invoked with dry run
    enqueues nothing on the outbound queue, calls nothing on the transport
    and performs no blocking get, and leaves the outbound queue and the
    dispatcher as they were.  PacketIn and IdleTimeoutNotification with dry
    run enqueue nothing and call nothing on the transport, but perform
    exactly one blocking get.  PacketOut takes no dry-run flag: whenever
    its metadata encode, it enqueues exactly one request. *)
Theorem dry_run_effects :
  (forall (classes : string -> SwitchConnection.PyClass)
          (op : SwitchConnection.Operation),
      (SwitchConnection.pulls_when_dry op = false ->
       SwitchConnection.dry_run_is_silent classes op) /\
      (SwitchConnection.pulls_when_dry op = true ->
       forall w,
         let w' := SwitchConnection.exec classes op true w in
         SwitchConnection.enqueues w' = SwitchConnection.enqueues w /\
         SwitchConnection.transport_calls w' = SwitchConnection.transport_calls w /\
         SwitchConnection.pulls w' = S (SwitchConnection.pulls w) /\
         SwitchConnection.requests_stream (SwitchConnection.self w')
         = SwitchConnection.requests_stream (SwitchConnection.self w))) /\
  (forall (payload : bytes) (metadatas : list SwitchConnection.Meta)
          (l : list PacketMetadata) (w : SwitchConnection.World),
      SwitchConnection.metadata_loop metadatas 1 [] = Ret l ->
      let w' := SwitchConnection.after
                  (SwitchConnection.PacketOut payload metadatas) w in
      SwitchConnection.enqueues w' = S (SwitchConnection.enqueues w) /\
      SwitchConnection.requests_stream (SwitchConnection.self w')
      = SwitchConnection.requests_stream (SwitchConnection.self w)
        ++ [IterableQueue.Msg (req_packet (mkPacketOut payload l))]).
Proof.
  split.
  - intros classes op. split.
    + intros P. apply dry_exec_prints_or_nothing. exact P.
    + intros P w w'. subst w'.
      destruct op; try discriminate P; cbn [SwitchConnection.exec];
        unfold SwitchConnection.after, SwitchConnection.PacketIn,
          SwitchConnection.IdleTimeoutNotification, SwitchConnection.bind;
        rewrite queue_get_spec; cbn [SwitchConnection.queue_of];
        unfold SwitchConnection.enqueues, SwitchConnection.transport_calls,
          SwitchConnection.pulls.
      * destruct (StreamDispatcher.packet_in_queue
                    (SwitchConnection.dispatcher (SwitchConnection.self w)));
          cbn -[SwitchConnection.count]; rewrite ?count_app; cbn;
          repeat split; lia.
      * destruct (StreamDispatcher.timeout_queue
                    (SwitchConnection.dispatcher (SwitchConnection.self w)));
          cbn -[SwitchConnection.count]; rewrite ?count_app; cbn;
          repeat split; lia.
  - intros payload metadatas l w E w'. subst w'.
    unfold SwitchConnection.after, SwitchConnection.PacketOut,
      SwitchConnection.bind, SwitchConnection.lift.
    rewrite E. unfold SwitchConnection.enqueues.
    cbn -[SwitchConnection.count]. rewrite count_app. cbn.
    split; [lia | reflexivity].
Qed.

Lemma dry_run_effects_witness :
  SwitchConnection.dry_run_is_silent Scenario.base_classes
    SwitchConnection.OpMasterArbitrationUpdate
  /\ SwitchConnection.pulls
       (SwitchConnection.exec Scenario.base_classes SwitchConnection.OpPacketIn
          true Scenario.busy_world)
     = S (SwitchConnection.pulls Scenario.busy_world)
  /\ SwitchConnection.enqueues
       (SwitchConnection.after
          (SwitchConnection.PacketOut [x41] [SwitchConnection.mkMeta 7 1])
          Scenario.fresh_world)
     = S (SwitchConnection.enqueues Scenario.fresh_world).
Proof.
  split; [|split].
  - exact (proj1 (proj1 dry_run_effects Scenario.base_classes
                    SwitchConnection.OpMasterArbitrationUpdate) eq_refl).
  - exact (proj1 (proj2 (proj2
             (proj2 (proj1 dry_run_effects Scenario.base_classes
                       SwitchConnection.OpPacketIn) eq_refl
                    Scenario.busy_world)))).
  - exact (proj1 (proj2 dry_run_effects [x41] [SwitchConnection.mkMeta 7 1]
                    [mkPacketMetadata 1 [x07]] Scenario.fresh_world eq_refl)).
Defined.

(** ** Bulk shutdown *)

Section BulkShutdown.

Import SwitchConnection.

Lemma shutdown_result c remote log :
  shutdown (mkWorld c remote log)
  = (Ret tt, mkWorld (shut_down c) remote (log ++ [EvPut IterableQueue.Sentinel])).
Proof. reflexivity. Qed.

Lemma shut_down_stopped c : stopped (shut_down c) = true.
Proof. reflexivity. Qed.

Lemma all_shut_down_stopped cs : forallb stopped (map shut_down cs) = true.
Proof.
  induction cs as [|c cs IH]; cbn [map forallb].
  - reflexivity.
  - now rewrite shut_down_stopped, IH.
Qed.

(** Over connections that inherit [shutdown] the loop runs to their end:
    each is shut down, one sentinel is put per connection, and the loop
    carries on with what follows. *)
Lemma shutdown_loop_inherited classes pre tail remote log :
  Forall (inherits_shutdown classes) pre ->
  shutdown_loop classes (pre ++ tail) remote log
  = let '(r, tail', log') :=
      shutdown_loop classes tail remote
        (log ++ repeat (EvPut IterableQueue.Sentinel) (List.length pre)) in
    (r, map shut_down pre ++ tail', log').
Proof.
  intros H. revert log. induction H as [|c pre Hc Hpre IH]; intros log.
  - cbn. rewrite app_nil_r.
    now destruct (shutdown_loop classes tail remote log) as [[r t'] l'].
  - cbn [app shutdown_loop]. unfold inherits_shutdown in Hc. rewrite Hc.
    rewrite shutdown_result. cbn [self trace]. rewrite IH.
    cbn [List.length repeat]. rewrite <- app_assoc. cbn [app].
    now destruct (shutdown_loop classes tail remote
                    (log ++ EvPut IterableQueue.Sentinel
                         :: repeat (EvPut IterableQueue.Sentinel) (List.length pre)))
      as [[r t'] l'].
Qed.

End BulkShutdown.

(** C2, as stated, fails: with a first registered connection whose
    shutdown raises, bulk shutdown ends with that exception and the second
    registered connection, a plain one, still has a running dispatcher. *)
Lemma bulk_shutdown_aborts_at_failure :
  fst (SwitchConnection.ShutdownAllSwitchConnections
         Scenario.classes_with_failing Scenario.failing_then_plain)
  = Raise (RuntimeError "shutdown failed")
  /\ map SwitchConnection.stopped
       (SwitchConnection.connections
          (snd (SwitchConnection.ShutdownAllSwitchConnections
                  Scenario.classes_with_failing Scenario.failing_then_plain)))
     = [false; false].
Proof. split; reflexivity. Qed.

(** C2 (amended). Bulk shutdown calls shutdown on the registered
    connections in registration order.  When every registered connection
    uses SwitchConnection.shutdown, which does not raise, bulk shutdown
    returns normally and every registered connection's dispatcher is
    stopped.  When a connection's shutdown raises, and those registered
    before it use SwitchConnection.shutdown, bulk shutdown ends with that
    exception: the connections registered before the failing one are shut
    down (dispatcher stopped), and those registered after it are left as
    they were. *)
Theorem bulk_shutdown_in_order_until_failure :
  (forall (classes : string -> SwitchConnection.PyClass)
          (cs : list SwitchConnection.t) remote log,
      Forall (SwitchConnection.inherits_shutdown classes) cs ->
      SwitchConnection.ShutdownAllSwitchConnections classes
        (SwitchConnection.mkProcess cs remote log)
      = (Ret tt,
         SwitchConnection.mkProcess (map SwitchConnection.shut_down cs) remote
           (log ++ repeat (SwitchConnection.EvPut IterableQueue.Sentinel)
                          (List.length cs)))
      /\ forallb SwitchConnection.stopped (map SwitchConnection.shut_down cs)
         = true) /\
  (forall (classes : string -> SwitchConnection.PyClass)
          (pre post : list SwitchConnection.t) (c : SwitchConnection.t)
          remote log (e : Exn),
      Forall (SwitchConnection.inherits_shutdown classes) pre ->
      (forall l, fst (SwitchConnection.m_shutdown
                        (classes (SwitchConnection.cls c))
                        (SwitchConnection.mkWorld c remote l)) = Raise e) ->
      exists c' log',
        SwitchConnection.ShutdownAllSwitchConnections classes
          (SwitchConnection.mkProcess (pre ++ c :: post) remote log)
        = (Raise e,
           SwitchConnection.mkProcess
             (map SwitchConnection.shut_down pre ++ c' :: post) remote log')
        /\ forallb SwitchConnection.stopped (map SwitchConnection.shut_down pre)
           = true).
Proof.
  split.
  - intros classes cs remote log H. split; [|apply all_shut_down_stopped].
    unfold SwitchConnection.ShutdownAllSwitchConnections.
    cbn [SwitchConnection.connections SwitchConnection.remote SwitchConnection.log].
    rewrite <- (app_nil_r cs) at 1.
    rewrite (shutdown_loop_inherited classes cs [] remote log H).
    cbn. now rewrite app_nil_r.
  - intros classes pre post c remote log e H F.
    unfold SwitchConnection.ShutdownAllSwitchConnections.
    cbn [SwitchConnection.connections SwitchConnection.remote SwitchConnection.log].
    rewrite (shutdown_loop_inherited classes pre (c :: post) remote log H).
    cbn [SwitchConnection.shutdown_loop].
    specialize (F (log ++ repeat (SwitchConnection.EvPut IterableQueue.Sentinel)
                                 (List.length pre))).
    destruct (SwitchConnection.m_shutdown (classes (SwitchConnection.cls c))
                (SwitchConnection.mkWorld c remote
                   (log ++ repeat (SwitchConnection.EvPut IterableQueue.Sentinel)
                                  (List.length pre)))) as [r w'].
    cbn in F. subst r.
    exists (SwitchConnection.self w'), (SwitchConnection.trace w').
    split; [reflexivity | apply all_shut_down_stopped].
Qed.

Lemma bulk_shutdown_in_order_until_failure_witness :
  fst (SwitchConnection.ShutdownAllSwitchConnections Scenario.base_classes
         Scenario.three_plain) = Ret tt
  /\ exists c' log',
      SwitchConnection.ShutdownAllSwitchConnections Scenario.classes_with_failing
        (SwitchConnection.mkProcess
           ([Scenario.fresh]
            ++ SwitchConnection.mk "FailingConnection" None "127.0.0.1:50059" 9
                 IterableQueue.empty StreamDispatcher.__init__ None
            :: [Scenario.busy])
           Scenario.quiet_remote [])
      = (Raise (RuntimeError "shutdown failed"),
         SwitchConnection.mkProcess
           (map SwitchConnection.shut_down [Scenario.fresh] ++ c' :: [Scenario.busy])
           Scenario.quiet_remote log')
      /\ forallb SwitchConnection.stopped
           (map SwitchConnection.shut_down [Scenario.fresh]) = true.
Proof.
  split.
  - exact (f_equal fst
             (proj1 (proj1 bulk_shutdown_in_order_until_failure
                       Scenario.base_classes
                       (SwitchConnection.connections Scenario.three_plain)
                       Scenario.quiet_remote []
                       (Forall_cons _ eq_refl
                          (Forall_cons _ eq_refl
                             (Forall_cons _ eq_refl (Forall_nil _))))))).
  - exact (proj2 bulk_shutdown_in_order_until_failure
             Scenario.classes_with_failing [Scenario.fresh] [Scenario.busy]
             (SwitchConnection.mk "FailingConnection" None "127.0.0.1:50059" 9
                IterableQueue.empty StreamDispatcher.__init__ None)
             Scenario.quiet_remote [] (RuntimeError "shutdown failed")
             (Forall_cons Scenario.fresh
                (eq_refl : SwitchConnection.inherits_shutdown
                             Scenario.classes_with_failing Scenario.fresh)
                (Forall_nil _))
             (fun l => eq_refl)).
Defined.

(** ** Packet-out metadata *)

Section Encoding.

Local Open Scope Z_scope.

Lemma Z_of_byte_of_Z (z : Z) : 0 <= z < 256 -> Z_of_byte (byte_of_Z z) = z.
Proof.
  intros Hz. unfold Z_of_byte, byte_of_Z.
  destruct (Byte.of_N (Z.to_N z)) as [b|] eqn:E.
  - apply Byte.to_of_N in E. rewrite E. apply Z2N.id. lia.
  - apply Byte.of_N_None_iff in E. lia.
Qed.

Lemma digits256_length (n : nat) (v : Z) : List.length (digits256 n v) = n.
Proof.
  revert v; induction n as [|n IH]; intros v; cbn [digits256 List.length].
  - reflexivity.
  - now rewrite IH.
Qed.

(** The digits, least significant first, denote [v] modulo [256 ^ n]. *)
Lemma digits256_value (n : nat) (v : Z) :
  fold_right (fun b acc => acc * 256 + Z_of_byte b) 0 (digits256 n v)
  = v mod 256 ^ Z.of_nat n.
Proof.
  revert v; induction n as [|n IH]; intros v.
  - cbn. now rewrite Z.mod_1_r.
  - cbn [digits256 fold_right]. rewrite IH.
    rewrite Z_of_byte_of_Z by (apply Z.mod_pos_bound; lia).
    rewrite Nat2Z.inj_succ, Z.pow_succ_r by lia.
    rewrite (Z.rem_mul_r v 256 (256 ^ Z.of_nat n)) by lia.
    lia.
Qed.

Lemma int_from_bytes_big_rev (l : bytes) :
  int_from_bytes_big (List.rev l)
  = fold_right (fun b acc => acc * 256 + Z_of_byte b) 0 l.
Proof.
  unfold int_from_bytes_big.
  rewrite <- (rev_involutive l) at 2.
  now rewrite fold_left_rev_right.
Qed.

Lemma ssize_t_bounds :
  PY_SSIZE_T_MAX = 9223372036854775807
  /\ PY_SSIZE_T_MAX - PyBytesObject_SIZE = 9223372036854775774.
Proof. split; reflexivity. Qed.

(** When [to_bytes] returns, the width is one a bytes object can have, the
    value fits in it, and the result is the digits of the value, most
    significant first. *)
Lemma int_to_bytes_big_ret (v length : Z) (bs : bytes) :
  int_to_bytes_big v length = Ret bs ->
  0 <= length <= PY_SSIZE_T_MAX - PyBytesObject_SIZE
  /\ 0 <= v < 256 ^ length
  /\ bs = List.rev (digits256 (Z.to_nat length) v).
Proof.
  unfold int_to_bytes_big. destruct ssize_t_bounds as [M A].
  destruct (Z.ltb_spec length (- PY_SSIZE_T_MAX - 1));
    cbn [orb]; [intros E; discriminate E|].
  destruct (Z.ltb_spec PY_SSIZE_T_MAX length);
    cbn [orb]; [intros E; discriminate E|].
  destruct (Z.ltb_spec length 0); [intros E; discriminate E|].
  destruct (Z.ltb_spec (PY_SSIZE_T_MAX - PyBytesObject_SIZE) length); [intros E; discriminate E|].
  destruct (Z.ltb_spec v 0); [intros E; discriminate E|].
  destruct (Z.leb_spec (256 ^ length) v); [intros E; discriminate E|].
  intros E. injection E as <-. repeat split; lia.
Qed.

Lemma int_to_bytes_big_decodes (v length : Z) (bs : bytes) :
  int_to_bytes_big v length = Ret bs ->
  List.length bs = Z.to_nat length /\ int_from_bytes_big bs = v.
Proof.
  intros E. destruct (int_to_bytes_big_ret _ _ _ E) as (Hl & Hv & ->). split.
  - now rewrite length_rev, digits256_length.
  - rewrite int_from_bytes_big_rev, digits256_value, Z2Nat.id by lia.
    apply Z.mod_small. lia.
Qed.

(** On a width that a bytes object can have and a value that fits,
    [to_bytes] returns. *)
Lemma int_to_bytes_big_fits (v length : Z) :
  0 <= length <= PY_SSIZE_T_MAX - PyBytesObject_SIZE ->
  0 <= v < 256 ^ length ->
  int_to_bytes_big v length = Ret (List.rev (digits256 (Z.to_nat length) v)).
Proof.
  unfold int_to_bytes_big. destruct ssize_t_bounds as [M A].
  intros Hl Hv.
  destruct (Z.ltb_spec length (- PY_SSIZE_T_MAX - 1)); [lia|].
  destruct (Z.ltb_spec PY_SSIZE_T_MAX length); [lia|]. cbn [orb].
  destruct (Z.ltb_spec length 0); [lia|].
  destruct (Z.ltb_spec (PY_SSIZE_T_MAX - PyBytesObject_SIZE) length); [lia|].
  destruct (Z.ltb_spec v 0); [lia|].
  destruct (Z.leb_spec (256 ^ length) v); [lia | reflexivity].
Qed.

(** [to_bytes] returns or raises; out of range it raises. *)
Lemma int_to_bytes_big_raises (v length : Z) :
  int_to_bytes_big v length <> Block
  /\ (length < 0 \/ v < 0 \/ 256 ^ length <= v ->
      exists e, int_to_bytes_big v length = Raise e).
Proof.
  unfold int_to_bytes_big.
  destruct ((length <? - PY_SSIZE_T_MAX - 1) || (PY_SSIZE_T_MAX <? length))%bool;
    [split; [discriminate | intros _; eexists; reflexivity]|].
  destruct (Z.ltb_spec length 0);
    [split; [discriminate | intros _; eexists; reflexivity]|].
  destruct (PY_SSIZE_T_MAX - PyBytesObject_SIZE <? length);
    [split; [discriminate | intros _; eexists; reflexivity]|].
  destruct (Z.ltb_spec v 0);
    [split; [discriminate | intros _; eexists; reflexivity]|].
  destruct (Z.leb_spec (256 ^ length) v);
    [split; [discriminate | intros _; eexists; reflexivity]|].
  split; [discriminate | intros [H2 | [H2 | H2]]; lia].
Qed.

End Encoding.

(** C3. What PacketOut does with the field value 300 and the declared
    bit width 16: the width is handed to [to_bytes] as a number of BYTES,
    so the field is encoded on 16 bytes (fourteen zero bytes, then 0x01,
    0x2C) and not as the 2-byte string 0x01,0x2C; and the value 65536,
    which does not fit in 16 bits, is encoded without any failure.
    Construction fails only from 256^16 on. *)
Theorem packet_out_takes_bitwidth_as_byte_count :
  forall (payload : bytes) (w : SwitchConnection.World),
    SwitchConnection.PacketOut payload [SwitchConnection.mkMeta 300 16] w
    = (Ret tt,
       SwitchConnection.mkWorld
         (SwitchConnection.with_requests_stream (SwitchConnection.self w)
            (SwitchConnection.requests_stream (SwitchConnection.self w)
             ++ [IterableQueue.Msg
                   (req_packet
                      (mkPacketOut payload
                         [mkPacketMetadata 1
                            [x00; x00; x00; x00; x00; x00; x00; x00;
                             x00; x00; x00; x00; x00; x00; x01; x2c]]))]))
         (SwitchConnection.stub w)
         (SwitchConnection.trace w
          ++ [SwitchConnection.EvPut
                (IterableQueue.Msg
                   (req_packet
                      (mkPacketOut payload
                         [mkPacketMetadata 1
                            [x00; x00; x00; x00; x00; x00; x00; x00;
                             x00; x00; x00; x00; x00; x00; x01; x2c]])))]))
    /\ int_to_bytes_big 300 16 <> Ret [x01; x2c]
    /\ fst (SwitchConnection.PacketOut payload
              [SwitchConnection.mkMeta 65536 16] w) = Ret tt
    /\ fst (SwitchConnection.PacketOut payload
              [SwitchConnection.mkMeta (256 ^ 16) 16] w)
       = Raise (OverflowError "int too big to convert").
Proof.
  intros payload w. repeat split.
  vm_compute. discriminate.
Qed.

(** ** The request logger *)

Section LoggerFacts.

Import GrpcRequestLogger.

Lemma string_app_assoc (a b c : string) : ((a ++ b) ++ c = a ++ (b ++ c))%string.
Proof.
  induction a as [|ch a IH]; cbn.
  - reflexivity.
  - now rewrite IH.
Qed.

Lemma content_write path s fs :
  content (write path s fs) path = (content fs path ++ s)%string.
Proof. unfold content, write, store. cbn. now rewrite String.eqb_refl. Qed.

Lemma content_open_a path fs : content (open_a path fs) path = content fs path.
Proof. unfold content at 1, open_a, store. cbn. now rewrite String.eqb_refl. Qed.

Lemma content_open_w path fs : content (open_w path fs) path = "".
Proof. unfold content, open_w, store. cbn. now rewrite String.eqb_refl. Qed.

Lemma truncations_open_a path p fs :
  truncations path (open_a p fs) = truncations path fs.
Proof.
  unfold truncations, open_a. cbn. rewrite filter_app, length_app. cbn. lia.
Qed.

Lemma truncations_open_w path fs :
  truncations path (open_w path fs) = S (truncations path fs).
Proof.
  unfold truncations, open_w. cbn. rewrite filter_app, length_app. cbn.
  rewrite String.eqb_refl. cbn. lia.
Qed.

Lemma truncations_write path p s fs :
  truncations path (write p s fs) = truncations path fs.
Proof. reflexivity. Qed.

Variable Body : Type.
Variable str : Body -> string.

(** A call appends one record to the file and never truncates it. *)
Lemma log_message_content self now method_name body fs :
  content (log_message Body str self now method_name body fs) (log_file self)
  = (content fs (log_file self)
     ++ record_of (drop_last3 now) method_name
          (if (String.length (str body) <? MSG_LOG_MAX_LEN)%nat
           then str body
           else too_long (String.length (str body))))%string.
Proof.
  unfold log_message, record_of.
  destruct (String.length (str body) <? MSG_LOG_MAX_LEN)%nat;
    rewrite !content_write, content_open_a, !string_app_assoc; reflexivity.
Qed.

Lemma log_message_truncations path self now method_name body fs :
  truncations path (log_message Body str self now method_name body fs)
  = truncations path fs.
Proof.
  unfold log_message.
  destruct (String.length (str body) <? MSG_LOG_MAX_LEN)%nat;
    rewrite !truncations_write; apply truncations_open_a.
Qed.

Lemma log_calls_truncations path self calls fs :
  truncations path (log_calls Body str self calls fs) = truncations path fs.
Proof.
  unfold log_calls. revert fs.
  induction calls as [|[[now method] body] calls IH]; intros fs; cbn [fold_left].
  - reflexivity.
  - rewrite IH. apply log_message_truncations.
Qed.

End LoggerFacts.

(** C8, as stated, fails at the threshold: a body of exactly 1024 rendered
    characters does not exceed 1024, and the placeholder is written in its
    place. *)
Lemma log_message_elides_body_of_1024 :
  String.length Scenario.body_1024 <= 1024
  /\ GrpcRequestLogger.content
       (GrpcRequestLogger.log_message string (fun s => s) Scenario.logger
          Scenario.clock "/p4.v1.P4Runtime/Write" Scenario.body_1024
          Scenario.logger_fs)
       Scenario.dump_file
     = GrpcRequestLogger.record_of "2024-05-06 07:08:09.123"
         "/p4.v1.P4Runtime/Write" (GrpcRequestLogger.too_long 1024)
  /\ GrpcRequestLogger.content
       (GrpcRequestLogger.log_message string (fun s => s) Scenario.logger
          Scenario.clock "/p4.v1.P4Runtime/Write" Scenario.body_1024
          Scenario.logger_fs)
       Scenario.dump_file
     <> GrpcRequestLogger.record_of "2024-05-06 07:08:09.123"
          "/p4.v1.P4Runtime/Write" Scenario.body_1024.
Proof.
  split; [|split].
  - apply Nat.leb_le. vm_compute. reflexivity.
  - vm_compute. reflexivity.
  - intros H. vm_compute in H. discriminate H.
Qed.

(** C8 (amended). For every logged request, the logger appends to the
    sink one record made of the header, then the rendered body when its
    rendered length is below 1024 characters and a placeholder instead of
    the body when its rendered length is 1024 characters or more, then the
    trailer; logging opens the sink for appending and does not truncate
    it.  Creating the logger truncates the sink, once: after creation and
    any sequence of logged requests the sink has been truncated exactly
    one more time than before the creation. *)
Theorem logger_elides_long_bodies_truncates_once :
  forall (Body : Type) (str : Body -> string),
    (forall self now method_name body fs,
        (String.length (str body) < 1024 ->
         GrpcRequestLogger.content
           (GrpcRequestLogger.log_message Body str self now method_name body fs)
           (GrpcRequestLogger.log_file self)
         = (GrpcRequestLogger.content fs (GrpcRequestLogger.log_file self)
            ++ GrpcRequestLogger.record_of (drop_last3 now) method_name
                 (str body))%string) /\
        (1024 <= String.length (str body) ->
         GrpcRequestLogger.content
           (GrpcRequestLogger.log_message Body str self now method_name body fs)
           (GrpcRequestLogger.log_file self)
         = (GrpcRequestLogger.content fs (GrpcRequestLogger.log_file self)
            ++ GrpcRequestLogger.record_of (drop_last3 now) method_name
                 (GrpcRequestLogger.too_long (String.length (str body))))%string) /\
        GrpcRequestLogger.truncations (GrpcRequestLogger.log_file self)
          (GrpcRequestLogger.log_message Body str self now method_name body fs)
        = GrpcRequestLogger.truncations (GrpcRequestLogger.log_file self) fs) /\
    (forall log_file fs calls,
        let self := fst (GrpcRequestLogger.__init__ log_file fs) in
        let fs1 := snd (GrpcRequestLogger.__init__ log_file fs) in
        GrpcRequestLogger.log_file self = log_file /\
        GrpcRequestLogger.content fs1 log_file = "" /\
        GrpcRequestLogger.truncations log_file fs1
        = S (GrpcRequestLogger.truncations log_file fs) /\
        GrpcRequestLogger.truncations log_file
          (GrpcRequestLogger.log_calls Body str self calls fs1)
        = S (GrpcRequestLogger.truncations log_file fs)).
Proof.
  intros Body str. split.
  - intros self now method_name body fs.
    pose proof (log_message_content Body str self now method_name body fs) as C.
    unfold GrpcRequestLogger.MSG_LOG_MAX_LEN in C.
    split; [|split].
    + intros H. rewrite C.
      destruct (Nat.ltb_spec (String.length (str body)) 1024); [reflexivity | lia].
    + intros H. rewrite C.
      destruct (Nat.ltb_spec (String.length (str body)) 1024); [lia | reflexivity].
    + apply log_message_truncations.
  - intros log_file fs calls self fs1. subst self fs1.
    unfold GrpcRequestLogger.__init__.
    cbn [fst snd GrpcRequestLogger.log_file].
    split; [reflexivity|]. split; [|split].
    + now rewrite content_write, content_open_w.
    + rewrite truncations_write. apply truncations_open_w.
    + rewrite log_calls_truncations, truncations_write.
      apply truncations_open_w.
Qed.

Lemma logger_elides_long_bodies_truncates_once_witness :
  GrpcRequestLogger.content
    (GrpcRequestLogger.log_message string (fun s => s) Scenario.logger
       Scenario.clock "/p4.v1.P4Runtime/Write" "updates { type: INSERT }"
       Scenario.logger_fs)
    Scenario.dump_file
  = (GrpcRequestLogger.content Scenario.logger_fs Scenario.dump_file
     ++ GrpcRequestLogger.record_of (drop_last3 Scenario.clock)
          "/p4.v1.P4Runtime/Write" "updates { type: INSERT }")%string
  /\ GrpcRequestLogger.content
       (GrpcRequestLogger.log_message string (fun s => s) Scenario.logger
          Scenario.clock "/p4.v1.P4Runtime/Write" Scenario.body_1024
          Scenario.logger_fs)
       Scenario.dump_file
     = (GrpcRequestLogger.content Scenario.logger_fs Scenario.dump_file
        ++ GrpcRequestLogger.record_of (drop_last3 Scenario.clock)
             "/p4.v1.P4Runtime/Write"
             (GrpcRequestLogger.too_long (String.length Scenario.body_1024)))%string.
Proof.
  split.
  - apply (proj1 (proj1 (logger_elides_long_bodies_truncates_once string
                           (fun s => s))
                    Scenario.logger Scenario.clock "/p4.v1.P4Runtime/Write"
                    "updates { type: INSERT }" Scenario.logger_fs)).
    apply Nat.ltb_lt. vm_compute. reflexivity.
  - apply (proj1 (proj2 (proj1 (logger_elides_long_bodies_truncates_once string
                                  (fun s => s))
                    Scenario.logger Scenario.clock "/p4.v1.P4Runtime/Write"
                    Scenario.body_1024 Scenario.logger_fs))).
    apply Nat.leb_le. vm_compute. reflexivity.
Defined.

(** * Further properties of the code *)

(** ** [to_bytes] and the metadata loop of PacketOut *)

(** Whenever the [to_bytes] call of PacketOut returns, the width is not
    negative, the value lies between 0 and 256^width - 1, and the result
    has exactly [width] bytes which, read back most significant byte
    first, give the value: nothing is truncated. *)
Theorem to_bytes_round_trip :
  forall (v length : Z) (bs : bytes),
    int_to_bytes_big v length = Ret bs ->
    List.length bs = Z.to_nat length
    /\ int_from_bytes_big bs = v
    /\ (0 <= length)%Z /\ (0 <= v < 256 ^ length)%Z.
Proof.
  intros v length bs E.
  destruct (int_to_bytes_big_decodes _ _ _ E) as [L D].
  destruct (int_to_bytes_big_ret _ _ _ E) as (Hl & Hv & _).
  repeat split; try assumption; lia.
Qed.

Lemma to_bytes_round_trip_witness :
  List.length [x00; x01; xff] = Z.to_nat 3
  /\ int_from_bytes_big [x00; x01; xff] = 511%Z
  /\ (0 <= 3)%Z /\ (0 <= 511 < 256 ^ 3)%Z.
Proof.
  apply (to_bytes_round_trip 511 3 [x00; x01; xff]).
  reflexivity.
Defined.

(** [to_bytes] never returns out of range and never blocks: for a
    negative width, a negative value or a value of more than [width] bytes
    it raises.  A width outside the range of a C ssize_t is an
    OverflowError of the conversion, whatever the value; any other
    negative width is a ValueError, whatever the value. *)
Theorem to_bytes_raises_out_of_range :
  forall v length : Z,
    int_to_bytes_big v length <> Block
    /\ ((length < 0 \/ v < 0 \/ 256 ^ length <= v)%Z ->
        exists e, int_to_bytes_big v length = Raise e)
    /\ ((length < - 2 ^ 63 \/ 2 ^ 63 <= length)%Z ->
        int_to_bytes_big v length
        = Raise (OverflowError "Python int too large to convert to C ssize_t"))
    /\ ((- 2 ^ 63 <= length < 0)%Z ->
        int_to_bytes_big v length
        = Raise (ValueError "length argument must be non-negative")).
Proof.
  intros v length.
  destruct (int_to_bytes_big_raises v length) as [B R].
  split; [exact B|]. split; [exact R|].
  destruct ssize_t_bounds as [M _].
  assert (P : (2 ^ 63 = 9223372036854775808)%Z) by reflexivity.
  unfold int_to_bytes_big. split; intros H.
  - destruct (Z.ltb_spec length (- PY_SSIZE_T_MAX - 1));
      destruct (Z.ltb_spec PY_SSIZE_T_MAX length); cbn [orb];
      first [reflexivity | lia].
  - destruct (Z.ltb_spec length (- PY_SSIZE_T_MAX - 1));
      destruct (Z.ltb_spec PY_SSIZE_T_MAX length); cbn [orb]; try lia.
    destruct (Z.ltb_spec length 0); [reflexivity | lia].
Qed.

Lemma to_bytes_raises_out_of_range_witness :
  (exists e, int_to_bytes_big 256 1 = Raise e)
  /\ int_to_bytes_big 0 (2 ^ 63)
     = Raise (OverflowError "Python int too large to convert to C ssize_t")
  /\ int_to_bytes_big 0 (-1)
     = Raise (ValueError "length argument must be non-negative").
Proof.
  split; [|split].
  - apply (proj1 (proj2 (to_bytes_raises_out_of_range 256 1))).
    right; right. apply Z.leb_le. reflexivity.
  - apply (proj1 (proj2 (proj2 (to_bytes_raises_out_of_range 0 (2 ^ 63))))).
    right. apply Z.leb_le. reflexivity.
  - apply (proj2 (proj2 (proj2 (to_bytes_raises_out_of_range 0 (-1))))).
    split; [apply Z.leb_le | apply Z.ltb_lt]; reflexivity.
Defined.

Section MetadataLoop.

Import SwitchConnection Client.

(** When the loop returns, it has appended one item per field, numbered
    from [i] on, each with the bytes [to_bytes] returned for the field. *)
Lemma metadata_loop_ret (metadatas : list Meta) :
  forall (i : Z) (acc l : list PacketMetadata),
    metadata_loop metadatas i acc = Ret l ->
    exists new,
      l = acc ++ new
      /\ List.length new = List.length metadatas
      /\ forall k meta,
          nth_error metadatas k = Some meta ->
          exists v,
            nth_error new k = Some (mkPacketMetadata (i + Z.of_nat k) v)
            /\ int_to_bytes_big (meta_value meta) (bitwidth meta) = Ret v.
Proof.
  induction metadatas as [|m ms IH]; intros i acc l H.
  - cbn in H. injection H as <-. exists []. rewrite app_nil_r.
    repeat split. intros k meta E. destruct k; discriminate E.
  - cbn [metadata_loop] in H.
    destruct (set_uint32 i) as [id| |] eqn:Ei; try discriminate H.
    apply set_field_ret in Ei. subst id.
    destruct (int_to_bytes_big (meta_value m) (bitwidth m)) as [bs| |] eqn:E;
      try discriminate H.
    destruct (IH _ _ _ H) as (new & El & Ln & Hn).
    exists (mkPacketMetadata i bs :: new).
    rewrite El, <- app_assoc. cbn [app List.length].
    split; [reflexivity|]. split; [now rewrite Ln|].
    intros k meta Ek. destruct k as [|k]; cbn [nth_error] in *.
    + injection Ek as <-. exists bs. rewrite Z.add_0_r. split; [reflexivity | exact E].
    + destruct (Hn k meta Ek) as (v & Ev & Dv).
      exists v. rewrite Ev. split; [|exact Dv].
      do 2 f_equal. lia.
Qed.

Lemma metadata_loop_not_block (metadatas : list Meta) :
  forall (i : Z) (acc : list PacketMetadata),
    metadata_loop metadatas i acc <> Block.
Proof.
  induction metadatas as [|m ms IH]; intros i acc; cbn [metadata_loop].
  - discriminate.
  - pose proof (set_field_not_block 0 (2 ^ 32 - 1) i) as B.
    fold set_uint32 in B.
    destruct (set_uint32 i); try discriminate; [|contradiction].
    destruct (int_to_bytes_big_raises (meta_value m) (bitwidth m)) as [N _].
    destruct (int_to_bytes_big (meta_value m) (bitwidth m));
      try discriminate; [apply IH | contradiction].
Qed.

Lemma packet_out_cases (payload : bytes) (metadatas : list Meta) (w : World) :
  PacketOut payload metadatas w
  = match metadata_loop metadatas 1 [] with
    | Ret items =>
        (Ret tt,
         mkWorld
           (with_requests_stream (self w)
              (requests_stream (self w)
               ++ [IterableQueue.Msg (req_packet (mkPacketOut payload items))]))
           (stub w)
           (trace w
            ++ [EvPut (IterableQueue.Msg (req_packet (mkPacketOut payload items)))]))
    | Raise e => (Raise e, w)
    | Block => (Block, w)
    end.
Proof.
  unfold PacketOut, bind, lift.
  destruct (metadata_loop metadatas 1 []); reflexivity.
Qed.

End MetadataLoop.

(** Whenever PacketOut returns, it has enqueued exactly one packet request
    carrying the payload and one metadata item per field, in the caller's
    order; the item at position k (from 0) has identifier k + 1 and a
    value of [bitwidth] bytes that reads back, big-endian, as the field's
    value. *)
Theorem packet_out_numbers_fields_from_one :
  forall (payload : bytes) (metadatas : list SwitchConnection.Meta)
         (w : SwitchConnection.World),
    fst (SwitchConnection.PacketOut payload metadatas w) = Ret tt ->
    exists items,
      SwitchConnection.PacketOut payload metadatas w
      = (Ret tt,
         SwitchConnection.mkWorld
           (SwitchConnection.with_requests_stream (SwitchConnection.self w)
              (SwitchConnection.requests_stream (SwitchConnection.self w)
               ++ [IterableQueue.Msg (req_packet (mkPacketOut payload items))]))
           (SwitchConnection.stub w)
           (SwitchConnection.trace w
            ++ [SwitchConnection.EvPut
                  (IterableQueue.Msg (req_packet (mkPacketOut payload items)))]))
      /\ List.length items = List.length metadatas
      /\ forall k meta,
          nth_error metadatas k = Some meta ->
          exists v,
            nth_error items k = Some (mkPacketMetadata (1 + Z.of_nat k) v)
            /\ List.length v = Z.to_nat (SwitchConnection.bitwidth meta)
            /\ int_from_bytes_big v = SwitchConnection.meta_value meta.
Proof.
  intros payload metadatas w H.
  rewrite packet_out_cases in H |- *.
  destruct (SwitchConnection.metadata_loop metadatas 1 []) as [items|e|] eqn:E;
    try discriminate H.
  destruct (metadata_loop_ret metadatas 1 [] items E) as (new & El & L & N).
  cbn [app] in El. subst new.
  exists items. split; [reflexivity|]. split; [exact L|].
  intros k meta Ek. destruct (N k meta Ek) as (v & Ev & Dv).
  exists v. split; [exact Ev|]. now apply int_to_bytes_big_decodes.
Qed.

Lemma packet_out_numbers_fields_from_one_witness :
  exists items,
    SwitchConnection.PacketOut [x41; x42]
      [SwitchConnection.mkMeta 5 2; SwitchConnection.mkMeta 0 0;
       SwitchConnection.mkMeta 258 2] Scenario.fresh_world
    = (Ret tt,
       SwitchConnection.mkWorld
         (SwitchConnection.with_requests_stream
            (SwitchConnection.self Scenario.fresh_world)
            (SwitchConnection.requests_stream
               (SwitchConnection.self Scenario.fresh_world)
             ++ [IterableQueue.Msg (req_packet (mkPacketOut [x41; x42] items))]))
         (SwitchConnection.stub Scenario.fresh_world)
         (SwitchConnection.trace Scenario.fresh_world
          ++ [SwitchConnection.EvPut
                (IterableQueue.Msg (req_packet (mkPacketOut [x41; x42] items)))]))
    /\ List.length items = 3.
Proof.
  destruct (packet_out_numbers_fields_from_one [x41; x42]
              [SwitchConnection.mkMeta 5 2; SwitchConnection.mkMeta 0 0;
               SwitchConnection.mkMeta 258 2] Scenario.fresh_world)
    as (items & E & L & _).
  - reflexivity.
  - exists items. split; [exact E | exact L].
Defined.

(** One field that does not encode drops the whole packet.  Whenever
    PacketOut raises, the world is exactly as before the call: nothing is
    enqueued and no effect is performed.  And PacketOut raises as soon as
    [to_bytes] does not return on one of the fields, wherever that field
    stands in the list and whatever the other fields are. *)
Theorem packet_out_failure_enqueues_nothing :
  forall (payload : bytes) (metadatas : list SwitchConnection.Meta)
         (w : SwitchConnection.World),
    (forall e,
        fst (SwitchConnection.PacketOut payload metadatas w) = Raise e ->
        SwitchConnection.PacketOut payload metadatas w = (Raise e, w)) /\
    (forall m,
        In m metadatas -> ~ Client.encodes m ->
        exists e, SwitchConnection.PacketOut payload metadatas w = (Raise e, w)).
Proof.
  intros payload metadatas w. rewrite packet_out_cases.
  pose proof (metadata_loop_not_block metadatas 1 []) as B.
  destruct (SwitchConnection.metadata_loop metadatas 1 []) as [items|e|] eqn:E;
    [| |contradiction].
  - split; [intros e H; discriminate H|].
    intros m Hin Hm. exfalso. apply Hm.
    destruct (In_nth_error _ _ Hin) as [k Ek].
    destruct (metadata_loop_ret metadatas 1 [] items E) as (new & _ & _ & N).
    destruct (N k m Ek) as (v & _ & Ev). now exists v.
  - split.
    + intros e' H. cbn in H. now injection H as <-.
    + intros m _ _. now exists e.
Qed.

Lemma packet_out_failure_enqueues_nothing_witness :
  exists e,
    SwitchConnection.PacketOut [x41]
      [SwitchConnection.mkMeta 5 2; SwitchConnection.mkMeta 256 1;
       SwitchConnection.mkMeta 1 1]
      Scenario.fresh_world
    = (Raise e, Scenario.fresh_world).
Proof.
  apply (proj2 (packet_out_failure_enqueues_nothing [x41]
                  [SwitchConnection.mkMeta 5 2; SwitchConnection.mkMeta 256 1;
                   SwitchConnection.mkMeta 1 1] Scenario.fresh_world)
           (SwitchConnection.mkMeta 256 1)).
  - right; left; reflexivity.
  - intros [bs E]. vm_compute in E. discriminate E.
Defined.

(** ** More on the outbound queue *)

Section OutboundQueueMore.

Import IterableQueue.

(** Before any sentinel the consumer is handed the messages one per step
    and then waits inside [get]. *)
Lemma consume_without_sentinel (fuel : nat) :
  forall ms : list StreamMessageRequest,
    consume fuel __iter__ (map Msg ms)
    = (firstn fuel ms,
       if (fuel <=? List.length ms)%nat then OutOfFuel else Waiting,
       __iter__, map Msg (skipn fuel ms)).
Proof.
  induction fuel as [|fuel IH]; intros ms.
  - reflexivity.
  - destruct ms as [|m ms].
    + reflexivity.
    + change (consume (S fuel) __iter__ (map Msg (m :: ms)))
        with (let '(ms', e, it'', q'') := consume fuel __iter__ (map Msg ms) in
              (m :: ms', e, it'', q'')).
      rewrite IH. reflexivity.
Qed.

Lemma consume_exhausted (fuel : nat) (q : t) :
  consume (S fuel) (mkIterator true) q = ([], Finished, mkIterator true, q).
Proof. reflexivity. Qed.

End OutboundQueueMore.

(** What is put on the outbound queue after [close()] is never handed to
    the consumer: the iteration yields the messages put before the close
    and ends there, the late messages stay in the queue, and iterating
    again with the same (exhausted) iterator yields nothing and leaves
    them where they are. *)
Theorem messages_put_after_close_are_never_consumed :
  forall (ms late : list StreamMessageRequest) (extra fuel : nat),
    let q := IterableQueue.puts
               (IterableQueue.close (IterableQueue.puts IterableQueue.empty ms))
               late in
    IterableQueue.consume (S (List.length ms) + extra) IterableQueue.__iter__ q
    = (ms, IterableQueue.Finished, IterableQueue.mkIterator true,
       map IterableQueue.Msg late)
    /\ IterableQueue.consume (S fuel) (IterableQueue.mkIterator true)
         (map IterableQueue.Msg late)
       = ([], IterableQueue.Finished, IterableQueue.mkIterator true,
          map IterableQueue.Msg late).
Proof.
  intros ms late extra fuel q. subst q. split.
  - unfold IterableQueue.close, IterableQueue.put.
    rewrite !puts_app. cbn [app IterableQueue.empty].
    rewrite <- app_assoc. cbn [app].
    apply consume_upto_sentinel.
  - apply consume_exhausted.
Qed.

(** Without [close()] the iteration never ends by itself: after [fuel]
    steps the consumer has been handed the first [fuel] messages put, in
    order, the others are still queued, and once all are handed over it
    waits inside [get] (it is not finished). *)
Theorem open_queue_iteration_waits :
  forall (ms : list StreamMessageRequest) (fuel : nat),
    IterableQueue.consume fuel IterableQueue.__iter__
      (IterableQueue.puts IterableQueue.empty ms)
    = (firstn fuel ms,
       if (fuel <=? List.length ms)%nat
       then IterableQueue.OutOfFuel else IterableQueue.Waiting,
       IterableQueue.__iter__, map IterableQueue.Msg (skipn fuel ms)).
Proof.
  intros ms fuel. rewrite puts_app. cbn [app IterableQueue.empty].
  apply consume_without_sentinel.
Qed.

(** Shutdown ends the outbound stream only after what is pending: on a
    connection whose outbound queue holds the requests [ms], after one or
    more calls of shutdown the consumer is still handed all of [ms], in
    order, and then the iteration ends; the sentinels of the further
    calls stay in the queue. *)
Theorem shutdown_ends_stream_after_pending_requests :
  forall (w : SwitchConnection.World) (ms : list StreamMessageRequest)
         (n extra : nat),
    SwitchConnection.requests_stream (SwitchConnection.self w)
    = map IterableQueue.Msg ms ->
    IterableQueue.consume (S (List.length ms) + extra) IterableQueue.__iter__
      (SwitchConnection.requests_stream
         (SwitchConnection.self
            (Nat.iter (S n) (SwitchConnection.after SwitchConnection.shutdown) w)))
    = (ms, IterableQueue.Finished, IterableQueue.mkIterator true,
       repeat IterableQueue.Sentinel n).
Proof.
  intros w ms n extra H.
  rewrite Nat.iter_succ_r.
  pose proof (shutdown_again n w) as E. cbn zeta in E. rewrite E.
  cbn [SwitchConnection.self SwitchConnection.with_requests_stream
       SwitchConnection.requests_stream].
  unfold SwitchConnection.after. rewrite shutdown_spec.
  cbn [snd SwitchConnection.self SwitchConnection.requests_stream].
  rewrite H, <- app_assoc. cbn [app].
  apply consume_upto_sentinel.
Qed.

Lemma shutdown_ends_stream_after_pending_requests_witness :
  IterableQueue.consume (S 2 + 4) IterableQueue.__iter__
    (SwitchConnection.requests_stream
       (SwitchConnection.self
          (Nat.iter 3 (SwitchConnection.after SwitchConnection.shutdown)
             (SwitchConnection.after
                (SwitchConnection.PacketOut [x42] [SwitchConnection.mkMeta 9 2])
                (SwitchConnection.after
                   (SwitchConnection.PacketOut [x41] [SwitchConnection.mkMeta 7 1])
                   Scenario.busy_world)))))
  = ([req_packet (mkPacketOut [x41] [mkPacketMetadata 1 [x07]]);
      req_packet (mkPacketOut [x42] [mkPacketMetadata 1 [x00; x09]])],
     IterableQueue.Finished, IterableQueue.mkIterator true,
     repeat IterableQueue.Sentinel 2).
Proof.
  exact (shutdown_ends_stream_after_pending_requests
           (SwitchConnection.after
              (SwitchConnection.PacketOut [x42] [SwitchConnection.mkMeta 9 2])
              (SwitchConnection.after
                 (SwitchConnection.PacketOut [x41] [SwitchConnection.mkMeta 7 1])
                 Scenario.busy_world))
           [req_packet (mkPacketOut [x41] [mkPacketMetadata 1 [x07]]);
            req_packet (mkPacketOut [x42] [mkPacketMetadata 1 [x00; x09]])]
           2 4 eq_refl).
Defined.

Section Arbitration.

Import SwitchConnection Client.

(** MasterArbitrationUpdate without dry run, on a device id in range. *)
Lemma master_arbitration_run (w : World) :
  device_id_in_range w ->
  let c := self w in
  let request := req_arbitration (mkArbitration (device_id c) (mkUint128 0 1)) in
  let sent :=
    with_requests_stream c (requests_stream c ++ [IterableQueue.Msg request]) in
  let tr := trace w ++ [EvPut (IterableQueue.Msg request); EvGet arbitration_q] in
  MasterArbitrationUpdate false w
  = match StreamDispatcher.arbitration_queue (dispatcher c) with
    | [] => (Block, mkWorld sent (stub w) tr)
    | a :: rest =>
        (Ret (Some a),
         mkWorld (with_dispatcher sent (set_queue arbitration_q rest (dispatcher c)))
                 (stub w) tr)
    end.
Proof.
  intros H c request sent tr. subst c request sent tr.
  unfold MasterArbitrationUpdate, bind at 1, get_self.
  unfold bind at 1, lift. rewrite (set_uint64_in_range _ H).
  unfold bind at 1.
  change (requests_stream_put ?x ?w0)
    with (Ret tt,
          mkWorld (with_requests_stream (self w0) (requests_stream (self w0) ++ [x]))
                  (stub w0) (trace w0 ++ [EvPut x])).
  cbv iota beta. unfold bind. rewrite queue_get_spec.
  cbn [self stub trace with_requests_stream dispatcher queue_of].
  rewrite <- app_assoc. cbn [app].
  destruct (StreamDispatcher.arbitration_queue (dispatcher (self w)));
    reflexivity.
Qed.

(** Outside the range of a uint64 field the assignment of the device id
    raises before anything is done. *)
Lemma master_arbitration_out_of_range (dry_run : bool) (w : World) :
  ~ device_id_in_range w ->
  MasterArbitrationUpdate dry_run w
  = (Raise (ValueError ("Value out of range: " ++ fmt_int (device_id (self w)))),
     w).
Proof.
  intros H. unfold MasterArbitrationUpdate, bind, get_self, lift.
  now rewrite (set_uint64_outside _ H).
Qed.

End Arbitration.

(** A request issued after shutdown is never sent: on a connection with a
    device id in the uint64 range whose outbound queue holds the requests
    [ms], after shutdown a MasterArbitrationUpdate (without dry run) puts
    its request behind the sentinel; the consumer is handed [ms] and the
    iteration ends, with the arbitration request left in the queue. *)
Theorem requests_after_shutdown_are_never_sent :
  forall (w : SwitchConnection.World) (ms : list StreamMessageRequest)
         (extra : nat),
    Client.device_id_in_range w ->
    SwitchConnection.requests_stream (SwitchConnection.self w)
    = map IterableQueue.Msg ms ->
    let w' := SwitchConnection.after
                (SwitchConnection.MasterArbitrationUpdate false)
                (SwitchConnection.after SwitchConnection.shutdown w) in
    IterableQueue.consume (S (List.length ms) + extra) IterableQueue.__iter__
      (SwitchConnection.requests_stream (SwitchConnection.self w'))
    = (ms, IterableQueue.Finished, IterableQueue.mkIterator true,
       [IterableQueue.Msg
          (req_arbitration
             (mkArbitration
                (SwitchConnection.device_id (SwitchConnection.self w))
                (mkUint128 0 1)))]).
Proof.
  intros w ms extra R H w'. subst w'.
  unfold SwitchConnection.after at 2. rewrite shutdown_spec. cbn [snd].
  unfold SwitchConnection.after.
  rewrite master_arbitration_run by exact R.
  cbn [SwitchConnection.self SwitchConnection.dispatcher
       SwitchConnection.requests_stream SwitchConnection.device_id].
  destruct (StreamDispatcher.arbitration_queue
              (StreamDispatcher.stop
                 (SwitchConnection.dispatcher (SwitchConnection.self w))));
    cbn [snd SwitchConnection.self SwitchConnection.with_dispatcher
         SwitchConnection.with_requests_stream SwitchConnection.requests_stream];
    rewrite H, <- app_assoc; cbn [app];
    apply consume_upto_sentinel.
Qed.

Lemma requests_after_shutdown_are_never_sent_witness :
  IterableQueue.consume (S 1 + 1) IterableQueue.__iter__
    (SwitchConnection.requests_stream
       (SwitchConnection.self
          (SwitchConnection.after
             (SwitchConnection.MasterArbitrationUpdate false)
             (SwitchConnection.after SwitchConnection.shutdown
                (SwitchConnection.after
                   (SwitchConnection.PacketOut [x41] [SwitchConnection.mkMeta 7 1])
                   Scenario.busy_world)))))
  = ([req_packet (mkPacketOut [x41] [mkPacketMetadata 1 [x07]])],
     IterableQueue.Finished, IterableQueue.mkIterator true,
     [IterableQueue.Msg
        (req_arbitration
           (mkArbitration
              (SwitchConnection.device_id
                 (SwitchConnection.self
                    (SwitchConnection.after
                       (SwitchConnection.PacketOut [x41]
                          [SwitchConnection.mkMeta 7 1])
                       Scenario.busy_world)))
              (mkUint128 0 1)))]).
Proof.
  exact (requests_after_shutdown_are_never_sent
           (SwitchConnection.after
              (SwitchConnection.PacketOut [x41] [SwitchConnection.mkMeta 7 1])
              Scenario.busy_world)
           [req_packet (mkPacketOut [x41] [mkPacketMetadata 1 [x07]])] 1
           (conj (proj1 (Z.leb_le 0 0) eq_refl)
                 (proj1 (Z.ltb_lt 0 (2 ^ 64)) eq_refl))
           eq_refl).
Defined.

(** ** More on the dispatcher *)

Section DispatchMore.

Import StreamDispatcher.

Lemma route_out msg d out :
  snd (route msg d out)
  = out ++ (if well_formed msg then []
            else [("Unknown StreamMessageResponse:", msg)]).
Proof. destruct msg; cbn; now rewrite ?app_nil_r. Qed.

(** The four queues after the loop, for a running dispatcher. *)
Lemma dispatch_loop_queues s :
  forall d out,
    running d = true ->
    let d' := fst (_dispatch_loop s d out) in
    arbitration_queue d' = arbitration_queue d ++ arbitrations s /\
    packet_in_queue d' = packet_in_queue d ++ packets s /\
    timeout_queue d' = timeout_queue d ++ idle_timeouts s /\
    error_queue d' = error_queue d ++ errors s.
Proof.
  induction s as [|m s IH]; intros d out R.
  - cbn. now rewrite !app_nil_r.
  - cbn -[route]. rewrite R. cbn -[route].
    pose proof (route_queues m d out) as Q.
    pose proof (route_running m d out) as R'.
    destruct (route m d out) as [d1 out1]. cbn in Q, R'. rewrite R in R'.
    specialize (IH d1 out1 R'). cbn in IH.
    destruct Q as (Qa & Qp & Qt & Qe & _).
    destruct IH as (Ia & Ip & It & Ie).
    rewrite Ia, Ip, It, Ie, Qa, Qp, Qt, Qe.
    unfold arbitrations, packets, idle_timeouts, errors. cbn.
    now rewrite !app_nil_r, <- !app_assoc.
Qed.

End DispatchMore.

(** The dispatch loop loses and invents nothing.  With the flag set, every
    message read from the stream is either queued (the queues grow by the
    number of messages with one of the four variants) or reported (the
    output grows by one line per other message, in arrival order).  With
    the flag cleared by [stop], nothing is read: dispatcher and output are
    untouched, whatever the stream holds.  The loop never changes the
    flag. *)
Theorem dispatch_loop_accounts_for_every_message :
  forall (s : list StreamMessageResponse) (d : StreamDispatcher.t)
         (out : list StreamDispatcher.Diagnostic),
    StreamDispatcher.running
      (fst (StreamDispatcher._dispatch_loop s d out))
    = StreamDispatcher.running d /\
    StreamDispatcher._dispatch_loop s (StreamDispatcher.stop d) out
    = (StreamDispatcher.stop d, out) /\
    (StreamDispatcher.running d = true ->
     snd (StreamDispatcher._dispatch_loop s d out)
     = out ++ map (fun m => ("Unknown StreamMessageResponse:", m))
                  (filter (fun m => negb (StreamDispatcher.well_formed m)) s)
     /\ StreamDispatcher.queued (fst (StreamDispatcher._dispatch_loop s d out))
        + List.length (snd (StreamDispatcher._dispatch_loop s d out))
        = StreamDispatcher.queued d + List.length out + List.length s).
Proof.
  intros s d out. split; [apply dispatch_loop_running|].
  split; [destruct s; reflexivity|].
  revert d out. induction s as [|m s IH]; intros d out R.
  - cbn. rewrite app_nil_r. split; [reflexivity | lia].
  - cbn -[StreamDispatcher.route StreamDispatcher.well_formed].
    rewrite R. cbn -[StreamDispatcher.route StreamDispatcher.well_formed].
    pose proof (route_queues m d out) as Q.
    pose proof (route_running m d out) as R'.
    pose proof (route_out m d out) as O.
    destruct (StreamDispatcher.route m d out) as [d1 out1].
    cbn -[StreamDispatcher.well_formed] in Q, R', O. rewrite R in R'.
    subst out1.
    match goal with
    | |- context [StreamDispatcher._dispatch_loop s d1 ?o] =>
        destruct (IH d1 o R') as [IHo IHn]
    end.
    destruct Q as (_ & _ & _ & _ & Qn).
    split.
    + rewrite IHo.
      destruct (StreamDispatcher.well_formed m); cbn [negb map app];
        now rewrite <- app_assoc.
    + rewrite IHn, Qn, length_app.
      destruct (StreamDispatcher.well_formed m); cbn; lia.
Qed.

Lemma dispatch_loop_accounts_for_every_message_witness :
  snd (StreamDispatcher._dispatch_loop
         [resp_digest [x01]; resp_packet [x02]; resp_not_set]
         StreamDispatcher.__init__ [])
  = [] ++ map (fun m => ("Unknown StreamMessageResponse:", m))
              (filter (fun m => negb (StreamDispatcher.well_formed m))
                 [resp_digest [x01]; resp_packet [x02]; resp_not_set]).
Proof.
  exact (proj1 (proj2 (proj2
           (dispatch_loop_accounts_for_every_message
              [resp_digest [x01]; resp_packet [x02]; resp_not_set]
              StreamDispatcher.__init__ [])) eq_refl)).
Defined.

(** ** Pulling what the dispatcher routed *)

Section Pulls.

Import SwitchConnection Client.

Lemma calls_S {A : Type} (m : M A) (k : nat) (w : World) :
  calls m (S k) w
  = match m w with
    | (Ret a, w') =>
        match calls m k w' with
        | (Ret l, w'') => (Ret (a :: l), w'')
        | (Raise e, w'') => (Raise e, w'')
        | (Block, w'') => (Block, w'')
        end
    | (Raise e, w') => (Raise e, w')
    | (Block, w') => (Block, w')
    end.
Proof.
  cbn [calls]. unfold bind, ret.
  destruct (m w) as [[a|e|] w']; reflexivity.
Qed.

Lemma queue_of_set_queue q l d : queue_of q (set_queue q l d) = l.
Proof. destruct q; reflexivity. Qed.

(** One blocking get that returns what it took. *)
Lemma pull_head (q : QueueName) (m : M (option Proto)) :
  (forall w, m w = bind (queue_get q) (fun x => ret (Some x)) w) ->
  forall (w : World),
    m w
    = match queue_of q (dispatcher (self w)) with
      | [] => (Block, mkWorld (self w) (stub w) (trace w ++ [EvGet q]))
      | p :: rest =>
          (Ret (Some p),
           mkWorld (with_dispatcher (self w) (set_queue q rest (dispatcher (self w))))
                   (stub w) (trace w ++ [EvGet q]))
      end.
Proof.
  intros Hm w. rewrite Hm. unfold bind. rewrite queue_get_spec.
  destruct (queue_of q (dispatcher (self w))); reflexivity.
Qed.

(** Successive blocking gets on one queue return its payloads oldest
    first. *)
Lemma calls_pull (q : QueueName) (m : M (option Proto)) :
  (forall w, m w = bind (queue_get q) (fun x => ret (Some x)) w) ->
  forall (l rest : list Proto) (w : World),
    queue_of q (dispatcher (self w)) = l ++ rest ->
    fst (calls m (List.length l) w) = Ret (map Some l)
    /\ queue_of q (dispatcher (self (snd (calls m (List.length l) w)))) = rest
    /\ requests_stream (self (snd (calls m (List.length l) w)))
       = requests_stream (self w).
Proof.
  intros Hm l. induction l as [|p l IH]; intros rest w H.
  - cbn. repeat split. exact H.
  - cbn [List.length]. rewrite calls_S, (pull_head q m Hm), H. cbn [app].
    match goal with
    | |- context [calls m (List.length l) ?w1] =>
        destruct (IH rest w1) as (A & B & C);
          [cbn; apply queue_of_set_queue|];
        destruct (calls m (List.length l) w1) as [r w2]
    end.
    cbn [fst snd] in A, B, C. subst r. cbn. repeat split; assumption.
Qed.

Lemma calls_pull_blocks (q : QueueName) (m : M (option Proto)) :
  (forall w, m w = bind (queue_get q) (fun x => ret (Some x)) w) ->
  forall (l : list Proto) (w : World),
    queue_of q (dispatcher (self w)) = l ->
    fst (calls m (S (List.length l)) w) = Block.
Proof.
  intros Hm l. induction l as [|p l IH]; intros w H.
  - cbn [List.length]. rewrite calls_S, (pull_head q m Hm), H. reflexivity.
  - cbn [List.length]. rewrite calls_S, (pull_head q m Hm), H.
    match goal with
    | |- context [calls m (S (List.length l)) ?w1] =>
        pose proof (IH w1) as B;
        destruct (calls m (S (List.length l)) w1) as [r w2]
    end.
    cbn [fst] in B. rewrite B; [reflexivity | cbn; apply queue_of_set_queue].
Qed.

End Pulls.

(** Demultiplexing, end to end: on a connection whose dispatcher, running
    and with empty queues, has routed the stream [s], as many calls of
    PacketIn (without dry run) as [s] holds packets return exactly those
    packets in arrival order, and one call more blocks; the same holds for
    IdleTimeoutNotification and the idle-timeout notifications of [s]. *)
Theorem pulls_return_routed_payloads_in_arrival_order :
  forall (c : SwitchConnection.t) (s : list StreamMessageResponse)
         (stub : SwitchConnection.Rpc -> SwitchConnection.Reply)
         (tr : list SwitchConnection.Event),
    SwitchConnection.dispatcher c = StreamDispatcher.__init__ ->
    let w := SwitchConnection.mkWorld (Client.after_inbound c s) stub tr in
    fst (Client.calls (SwitchConnection.PacketIn false)
           (List.length (StreamDispatcher.packets s)) w)
    = Ret (map Some (StreamDispatcher.packets s)) /\
    fst (Client.calls (SwitchConnection.PacketIn false)
           (S (List.length (StreamDispatcher.packets s))) w)
    = Block /\
    fst (Client.calls (SwitchConnection.IdleTimeoutNotification false)
           (List.length (StreamDispatcher.idle_timeouts s)) w)
    = Ret (map Some (StreamDispatcher.idle_timeouts s)) /\
    fst (Client.calls (SwitchConnection.IdleTimeoutNotification false)
           (S (List.length (StreamDispatcher.idle_timeouts s))) w)
    = Block.
Proof.
  intros c s stub tr H w. subst w.
  destruct (dispatch_loop_queues s (SwitchConnection.dispatcher c) [])
    as (_ & Qp & Qt & _); [now rewrite H|].
  rewrite H in Qp, Qt. cbn [StreamDispatcher.packet_in_queue
    StreamDispatcher.timeout_queue StreamDispatcher.__init__ app] in Qp, Qt.
  assert (P : forall w, SwitchConnection.PacketIn false w
                        = SwitchConnection.bind
                            (SwitchConnection.queue_get SwitchConnection.packet_in_q)
                            (fun x => SwitchConnection.ret (Some x)) w)
    by reflexivity.
  assert (T : forall w, SwitchConnection.IdleTimeoutNotification false w
                        = SwitchConnection.bind
                            (SwitchConnection.queue_get SwitchConnection.timeout_q)
                            (fun x => SwitchConnection.ret (Some x)) w)
    by reflexivity.
  repeat split.
  - apply (calls_pull _ _ P (StreamDispatcher.packets s) []).
    rewrite app_nil_r. cbn. rewrite H. exact Qp.
  - apply (calls_pull_blocks _ _ P). cbn. rewrite H. exact Qp.
  - apply (calls_pull _ _ T (StreamDispatcher.idle_timeouts s) []).
    rewrite app_nil_r. cbn. rewrite H. exact Qt.
  - apply (calls_pull_blocks _ _ T). cbn. rewrite H. exact Qt.
Qed.

Lemma pulls_return_routed_payloads_in_arrival_order_witness :
  fst (Client.calls (SwitchConnection.PacketIn false)
         (List.length (StreamDispatcher.packets Scenario.inbound))
         (SwitchConnection.mkWorld
            (Client.after_inbound Scenario.fresh Scenario.inbound)
            Scenario.quiet_remote []))
  = Ret (map Some (StreamDispatcher.packets Scenario.inbound)).
Proof.
  exact (proj1 (pulls_return_routed_payloads_in_arrival_order Scenario.fresh
                  Scenario.inbound Scenario.quiet_remote [] eq_refl)).
Defined.

(** ** More on the connection operations *)

Section OperationsMore.

Import SwitchConnection Client.

Lemma call_spec (c : Rpc) (w : World) :
  call c w
  = (match failure (stub w c) with Some e => Raise e | None => Ret tt end,
     mkWorld (self w) (stub w) (trace w ++ [EvCall c])).
Proof.
  unfold call, bind, emit, lift, ret. cbn.
  destruct (failure (stub w c)); reflexivity.
Qed.

Lemma requests_stream_put_spec (x : IterableQueue.Item) (w : World) :
  requests_stream_put x w
  = (Ret tt,
     mkWorld (with_requests_stream (self w) (requests_stream (self w) ++ [x]))
             (stub w) (trace w ++ [EvPut x])).
Proof. reflexivity. Qed.

Lemma new_events_app (w : World) (c : t) s (l : list Event) :
  new_events w (mkWorld c s (trace w ++ l)) = l.
Proof.
  unfold new_events. cbn [trace].
  rewrite skipn_app, Nat.sub_diag, skipn_all. reflexivity.
Qed.

Lemma new_events_same (w : World) : new_events w w = [].
Proof. unfold new_events. apply skipn_all. Qed.

End OperationsMore.

Section OperationsRun.

Import SwitchConnection Client.

Lemma in_range_cases (w : World) :
  (device_id_in_range w /\ set_uint64 (device_id (self w)) = Ret (device_id (self w)))
  \/ (~ device_id_in_range w
      /\ set_uint64 (device_id (self w))
         = Raise (ValueError ("Value out of range: "
                              ++ fmt_int (device_id (self w))))).
Proof.
  unfold device_id_in_range, set_uint64.
  destruct (set_field_cases 0 (2 ^ 64 - 1) (device_id (self w)))
    as [[R E] | [N E]]; [left | right]; (split; [lia | exact E]).
Qed.

Lemma master_arbitration_dry (w : World) :
  device_id_in_range w ->
  MasterArbitrationUpdate true w
  = (Ret None,
     mkWorld (self w) (stub w)
       (trace w
        ++ [EvPrint "P4Runtime MasterArbitrationUpdate: "
              (PStreamRequest
                 (req_arbitration
                    (mkArbitration (device_id (self w)) (mkUint128 0 1))))])).
Proof.
  intros H. unfold MasterArbitrationUpdate, bind, get_self, lift.
  now rewrite (set_uint64_in_range _ H).
Qed.

(** The three write methods: the device id is assigned first, then the
    request is printed or sent. *)
Lemma write_run (w : World) (dry_run : bool) (te : TableEntry) (pre : Proto) :
  let run (u : Update) :=
    match set_uint64 (device_id (self w)) with
    | Ret id =>
        let request := mkWriteRequest id election_id_1 [u] in
        if dry_run
        then (Ret tt,
              mkWorld (self w) (stub w)
                (trace w ++ [EvPrint "P4Runtime Write:" (PWrite request)]))
        else (match failure (stub w (RpcWrite request)) with
              | Some e => Raise e
              | None => Ret tt
              end,
              mkWorld (self w) (stub w) (trace w ++ [EvCall (RpcWrite request)]))
    | Raise e => (Raise e, w)
    | Block => (Block, w)
    end in
  WriteTableEntry te dry_run w
  = run (mkUpdate (if is_default_action te then MODIFY else INSERT)
                  (entity_table_entry te)) /\
  DeleteTableEntry te dry_run w = run (mkUpdate DELETE (entity_table_entry te)) /\
  WritePREEntry pre dry_run w
  = run (mkUpdate INSERT (entity_packet_replication_engine_entry pre)).
Proof.
  cbv zeta.
  unfold WriteTableEntry, DeleteTableEntry, WritePREEntry, bind, get_self, lift.
  destruct (set_uint64 (device_id (self w))); [|repeat split..].
  destruct dry_run; [repeat split|].
  rewrite !call_spec. repeat split.
Qed.

Lemma pipeline_config_run (classes : string -> PyClass) (p4 : Proto)
      (dry_run : bool) (kwargs : Kwargs) (w : World) :
  SetForwardingPipelineConfig classes p4 dry_run kwargs w
  = match m_buildDeviceConfig (classes (cls (self w))) kwargs with
    | Ret device_config =>
        match set_uint64 (device_id (self w)) with
        | Ret id =>
            let request :=
              mkSetFwd id election_id_1 VERIFY_AND_COMMIT
                       (mkFwdConfig p4 device_config) in
            if dry_run
            then (Ret tt,
                  mkWorld (self w) (stub w)
                    (trace w
                     ++ [EvPrint "P4Runtime SetForwardingPipelineConfig:"
                           (PSetForwardingPipelineConfig request)]))
            else (match failure (stub w (RpcSetForwardingPipelineConfig request))
                  with
                  | Some e => Raise e
                  | None => Ret tt
                  end,
                  mkWorld (self w) (stub w)
                    (trace w ++ [EvCall (RpcSetForwardingPipelineConfig request)]))
        | Raise e => (Raise e, w)
        | Block => (Block, w)
        end
    | Raise e => (Raise e, w)
    | Block => (Block, w)
    end.
Proof.
  unfold SetForwardingPipelineConfig, bind, get_self, lift.
  destruct (m_buildDeviceConfig (classes (cls (self w))) kwargs);
    [|reflexivity..].
  destruct (set_uint64 (device_id (self w))); [|reflexivity..].
  destruct dry_run; [reflexivity | now rewrite call_spec].
Qed.

End OperationsRun.

(** MasterArbitrationUpdate without dry run, on a connection whose device
    id is in the range of a uint64 field: the arbitration request (this
    connection's device id, election id high 0 and low 1) is put on the
    outbound queue first; the call then returns the oldest payload of the
    arbitration queue, whichever message it came from, and removes it;
    when that queue is empty the caller blocks, and the request has been
    enqueued all the same.  With a device id outside that range the call,
    with or without dry run, raises ValueError and has done nothing. *)
Theorem arbitration_enqueues_then_pulls_oldest :
  forall (w : SwitchConnection.World),
    let c := SwitchConnection.self w in
    let request :=
      req_arbitration
        (mkArbitration (SwitchConnection.device_id c) (mkUint128 0 1)) in
    let sent :=
      SwitchConnection.with_requests_stream c
        (SwitchConnection.requests_stream c ++ [IterableQueue.Msg request]) in
    let tr :=
      SwitchConnection.trace w
      ++ [SwitchConnection.EvPut (IterableQueue.Msg request);
          SwitchConnection.EvGet SwitchConnection.arbitration_q] in
    (Client.device_id_in_range w ->
     SwitchConnection.MasterArbitrationUpdate false w
     = match StreamDispatcher.arbitration_queue (SwitchConnection.dispatcher c) with
       | [] => (Block, SwitchConnection.mkWorld sent (SwitchConnection.stub w) tr)
       | a :: rest =>
           (Ret (Some a),
            SwitchConnection.mkWorld
              (SwitchConnection.with_dispatcher sent
                 (SwitchConnection.set_queue SwitchConnection.arbitration_q rest
                    (SwitchConnection.dispatcher c)))
              (SwitchConnection.stub w) tr)
       end) /\
    (~ Client.device_id_in_range w ->
     forall dry_run,
       SwitchConnection.MasterArbitrationUpdate dry_run w
       = (Raise (ValueError ("Value out of range: "
                             ++ fmt_int (SwitchConnection.device_id c))), w)).
Proof.
  intros w c request sent tr. subst c request sent tr. split.
  - intros H. apply (master_arbitration_run w H).
  - intros H dry. apply master_arbitration_out_of_range. exact H.
Qed.

Lemma arbitration_enqueues_then_pulls_oldest_witness :
  fst (SwitchConnection.MasterArbitrationUpdate false
         (SwitchConnection.mkWorld
            (Client.after_inbound Scenario.fresh
               [resp_packet [x01]; resp_arbitration [x02]; resp_arbitration [x03]])
            Scenario.quiet_remote []))
  = Ret (Some [x02])
  /\ SwitchConnection.MasterArbitrationUpdate false
       (SwitchConnection.mkWorld
          (SwitchConnection.mk "SwitchConnection" None "127.0.0.1:50051" (-1)
             [] StreamDispatcher.__init__ None)
          Scenario.quiet_remote [])
     = (Raise (ValueError "Value out of range: -1"),
        SwitchConnection.mkWorld
          (SwitchConnection.mk "SwitchConnection" None "127.0.0.1:50051" (-1)
             [] StreamDispatcher.__init__ None)
          Scenario.quiet_remote []).
Proof.
  split.
  - exact (f_equal fst
             (proj1 (arbitration_enqueues_then_pulls_oldest
                       (SwitchConnection.mkWorld
                          (Client.after_inbound Scenario.fresh
                             [resp_packet [x01]; resp_arbitration [x02];
                              resp_arbitration [x03]])
                          Scenario.quiet_remote []))
                    (conj (proj1 (Z.leb_le 0 0) eq_refl)
                          (proj1 (Z.ltb_lt 0 (2 ^ 64)) eq_refl)))).
  - apply (proj2 (arbitration_enqueues_then_pulls_oldest
                    (SwitchConnection.mkWorld
                       (SwitchConnection.mk "SwitchConnection" None
                          "127.0.0.1:50051" (-1) [] StreamDispatcher.__init__ None)
                       Scenario.quiet_remote []))).
    intros [H _]. apply Z.leb_le in H. discriminate H.
Defined.

(** The three write operations.  On a connection whose device id is in
    the range of a uint64 field, without dry run, they make exactly one
    Write call and nothing else: they return when the transport answers
    without error and raise the transport's error unchanged when it fails;
    the connection (outbound queue, dispatcher) is as before in both
    cases.  WritePREEntry sends a single update of type INSERT for the
    replication entry.  With a device id outside that range they raise
    ValueError, with or without dry run, and have done nothing: no call
    and no print. *)
Theorem write_operations_propagate_transport_errors :
  forall (w : SwitchConnection.World) (table_entry : TableEntry)
         (pre_entry : Proto),
    let run (u : Update) :=
      let c := SwitchConnection.RpcWrite
                 (mkWriteRequest
                    (SwitchConnection.device_id (SwitchConnection.self w))
                    (mkUint128 0 1) [u]) in
      (match SwitchConnection.failure (SwitchConnection.stub w c) with
       | Some e => Raise e
       | None => Ret tt
       end,
       SwitchConnection.mkWorld (SwitchConnection.self w)
         (SwitchConnection.stub w)
         (SwitchConnection.trace w ++ [SwitchConnection.EvCall c])) in
    let refused :=
      (Raise (ValueError ("Value out of range: "
                          ++ fmt_int (SwitchConnection.device_id
                                        (SwitchConnection.self w)))) : Outcome unit,
       w) in
    (Client.device_id_in_range w ->
     SwitchConnection.WriteTableEntry table_entry false w
     = run (mkUpdate (if is_default_action table_entry then MODIFY else INSERT)
                     (entity_table_entry table_entry)) /\
     SwitchConnection.DeleteTableEntry table_entry false w
     = run (mkUpdate DELETE (entity_table_entry table_entry)) /\
     SwitchConnection.WritePREEntry pre_entry false w
     = run (mkUpdate INSERT (entity_packet_replication_engine_entry pre_entry))) /\
    (~ Client.device_id_in_range w ->
     forall dry_run,
       SwitchConnection.WriteTableEntry table_entry dry_run w = refused /\
       SwitchConnection.DeleteTableEntry table_entry dry_run w = refused /\
       SwitchConnection.WritePREEntry pre_entry dry_run w = refused).
Proof.
  intros w te pre run refused. subst run refused. cbv beta zeta. split.
  - intros H.
    destruct (write_run w false te pre) as (A & B & C).
    rewrite A, B, C.
    destruct (in_range_cases w) as [[_ E] | [N _]]; [|contradiction].
    rewrite E. repeat split.
  - intros H dry.
    destruct (write_run w dry te pre) as (A & B & C).
    rewrite A, B, C.
    destruct (in_range_cases w) as [[R _] | [_ E]]; [contradiction|].
    rewrite E. repeat split.
Qed.

Lemma write_operations_propagate_transport_errors_witness :
  SwitchConnection.WritePREEntry [x05] false Scenario.busy_world
  = (Ret tt,
     SwitchConnection.mkWorld (SwitchConnection.self Scenario.busy_world)
       (SwitchConnection.stub Scenario.busy_world)
       (SwitchConnection.trace Scenario.busy_world
        ++ [SwitchConnection.EvCall
              (SwitchConnection.RpcWrite
                 (mkWriteRequest
                    (SwitchConnection.device_id
                       (SwitchConnection.self Scenario.busy_world))
                    (mkUint128 0 1)
                    [mkUpdate INSERT
                       (entity_packet_replication_engine_entry [x05])]))]))
  /\ fst (SwitchConnection.DeleteTableEntry (mkTableEntry 7 false []) true
            (SwitchConnection.mkWorld
               (SwitchConnection.mk "SwitchConnection" None "127.0.0.1:50051"
                  (2 ^ 64) [] StreamDispatcher.__init__ None)
               Scenario.quiet_remote []))
     = Raise (ValueError "Value out of range: 18446744073709551616").
Proof.
  split.
  - exact (proj2 (proj2
             (proj1 (write_operations_propagate_transport_errors
                       Scenario.busy_world (mkTableEntry 7 false []) [x05])
                    (conj (proj1 (Z.leb_le 0 0) eq_refl)
                          (proj1 (Z.ltb_lt 0 (2 ^ 64)) eq_refl))))).
  - refine (f_equal fst
              (proj1 (proj2
                 (proj2 (write_operations_propagate_transport_errors
                           (SwitchConnection.mkWorld
                              (SwitchConnection.mk "SwitchConnection" None
                                 "127.0.0.1:50051" (2 ^ 64) []
                                 StreamDispatcher.__init__ None)
                              Scenario.quiet_remote [])
                           (mkTableEntry 7 false []) [x05])
                        _ true)))).
    intros [_ H]. apply Z.ltb_lt in H. discriminate H.
Defined.

(** SetForwardingPipelineConfig builds the device configuration first,
    with the [buildDeviceConfig] of the connection's class.  When the
    builder raises, the operation raises the same exception and has done
    nothing, with or without dry run.  When it returns a configuration and
    the device id is outside the range of a uint64 field, the operation
    raises ValueError and has done nothing.  When it returns a
    configuration and the device id is in range, the request carries the
    connection's device id, election id low 1, the action
    VERIFY_AND_COMMIT, the given p4info and that configuration; it is
    printed on a dry run, and otherwise sent in exactly one call whose
    transport error, if any, is raised unchanged. *)
Theorem pipeline_config_builds_before_it_sends :
  forall (classes : string -> SwitchConnection.PyClass) (p4 : Proto)
         (dry_run : bool) (kwargs : SwitchConnection.Kwargs)
         (w : SwitchConnection.World),
    let build :=
      SwitchConnection.m_buildDeviceConfig
        (classes (SwitchConnection.cls (SwitchConnection.self w))) kwargs in
    (forall e, build = Raise e ->
       SwitchConnection.SetForwardingPipelineConfig classes p4 dry_run kwargs w
       = (Raise e, w)) /\
    (forall device_config, build = Ret device_config ->
       ~ Client.device_id_in_range w ->
       SwitchConnection.SetForwardingPipelineConfig classes p4 dry_run kwargs w
       = (Raise (ValueError ("Value out of range: "
                             ++ fmt_int (SwitchConnection.device_id
                                           (SwitchConnection.self w)))), w)) /\
    (forall device_config, build = Ret device_config ->
       Client.device_id_in_range w ->
       let request :=
         mkSetFwd (SwitchConnection.device_id (SwitchConnection.self w))
           (mkUint128 0 1) VERIFY_AND_COMMIT (mkFwdConfig p4 device_config) in
       SwitchConnection.SetForwardingPipelineConfig classes p4 dry_run kwargs w
       = if dry_run
         then (Ret tt,
               SwitchConnection.mkWorld (SwitchConnection.self w)
                 (SwitchConnection.stub w)
                 (SwitchConnection.trace w
                  ++ [SwitchConnection.EvPrint
                        "P4Runtime SetForwardingPipelineConfig:"
                        (SwitchConnection.PSetForwardingPipelineConfig request)]))
         else (match SwitchConnection.failure
                       (SwitchConnection.stub w
                          (SwitchConnection.RpcSetForwardingPipelineConfig request))
               with
               | Some e => Raise e
               | None => Ret tt
               end,
               SwitchConnection.mkWorld (SwitchConnection.self w)
                 (SwitchConnection.stub w)
                 (SwitchConnection.trace w
                  ++ [SwitchConnection.EvCall
                        (SwitchConnection.RpcSetForwardingPipelineConfig request)]))).
Proof.
  intros classes p4 dry kwargs w build. subst build.
  rewrite pipeline_config_run. split; [|split].
  - intros e E. now rewrite E.
  - intros cfg E H. rewrite E.
    destruct (in_range_cases w) as [[R _] | [_ Ev]]; [contradiction|].
    now rewrite Ev.
  - intros cfg E H request. subst request. rewrite E.
    destruct (in_range_cases w) as [[_ Ev] | [N _]]; [|contradiction].
    rewrite Ev. destruct dry; reflexivity.
Qed.

Lemma pipeline_config_builds_before_it_sends_witness :
  SwitchConnection.SetForwardingPipelineConfig Scenario.base_classes [x01]
    true [] Scenario.fresh_world
  = (Ret tt,
     SwitchConnection.mkWorld (SwitchConnection.self Scenario.fresh_world)
       (SwitchConnection.stub Scenario.fresh_world)
       (SwitchConnection.trace Scenario.fresh_world
        ++ [SwitchConnection.EvPrint "P4Runtime SetForwardingPipelineConfig:"
              (SwitchConnection.PSetForwardingPipelineConfig
                 (mkSetFwd
                    (SwitchConnection.device_id
                       (SwitchConnection.self Scenario.fresh_world))
                    (mkUint128 0 1) VERIFY_AND_COMMIT (mkFwdConfig [x01] [])))]))
  /\ SwitchConnection.SetForwardingPipelineConfig Scenario.base_classes [x01]
       false []
       (SwitchConnection.mkWorld
          (SwitchConnection.mk "SwitchConnection" None "127.0.0.1:50051"
             (2 ^ 64) [] StreamDispatcher.__init__ None)
          Scenario.quiet_remote [])
     = (Raise (ValueError "Value out of range: 18446744073709551616"),
        SwitchConnection.mkWorld
          (SwitchConnection.mk "SwitchConnection" None "127.0.0.1:50051"
             (2 ^ 64) [] StreamDispatcher.__init__ None)
          Scenario.quiet_remote []).
Proof.
  split.
  - exact (proj2 (proj2 (pipeline_config_builds_before_it_sends
                           Scenario.base_classes [x01] true []
                           Scenario.fresh_world))
             [] eq_refl
             (conj (proj1 (Z.leb_le 0 0) eq_refl)
                   (proj1 (Z.ltb_lt 0 (2 ^ 64)) eq_refl))).
  - apply (proj1 (proj2 (pipeline_config_builds_before_it_sends
                           Scenario.base_classes [x01] false []
                           (SwitchConnection.mkWorld
                              (SwitchConnection.mk "SwitchConnection" None
                                 "127.0.0.1:50051" (2 ^ 64) []
                                 StreamDispatcher.__init__ None)
                              Scenario.quiet_remote [])))
             [] eq_refl).
    intros [_ H]. apply Z.ltb_lt in H. discriminate H.
Defined.

(** A dry run shows what the real call would send.  For every operation
    with a dry-run flag other than PacketIn and IdleTimeoutNotification,
    the object printed by the dry run is the request that the same call
    without dry run enqueues or sends as its first effect; when the
    configuration builder raises, neither run has any effect. *)
Theorem dry_run_prints_the_request_that_would_be_sent :
  forall (classes : string -> SwitchConnection.PyClass)
         (op : SwitchConnection.Operation) (w : SwitchConnection.World),
    SwitchConnection.pulls_when_dry op = false ->
    map Client.carried
        (Client.new_events w (SwitchConnection.exec classes op true w))
    = firstn 1
        (map Client.carried
           (Client.new_events w (SwitchConnection.exec classes op false w))).
Proof.
  intros classes op w P.
  destruct op; try discriminate P; cbn [SwitchConnection.exec];
    unfold SwitchConnection.after.
  - (* MasterArbitrationUpdate *)
    destruct (in_range_cases w) as [[R _] | [N _]].
    + rewrite (master_arbitration_run w R), (master_arbitration_dry w R).
      destruct (StreamDispatcher.arbitration_queue
                  (SwitchConnection.dispatcher (SwitchConnection.self w)));
        cbn [snd]; rewrite !new_events_app; reflexivity.
    + rewrite !(master_arbitration_out_of_range _ w N). cbn [snd].
      rewrite new_events_same. reflexivity.
  - (* SetForwardingPipelineConfig *)
    rewrite !pipeline_config_run.
    destruct (SwitchConnection.m_buildDeviceConfig
                (classes (SwitchConnection.cls (SwitchConnection.self w))) kwargs);
      [|cbn [snd]; rewrite new_events_same; reflexivity..].
    destruct (set_uint64 (SwitchConnection.device_id (SwitchConnection.self w)));
      cbn [snd]; rewrite ?new_events_app, ?new_events_same; reflexivity.
  - destruct (write_run w true table_entry []) as (A & _).
    destruct (write_run w false table_entry []) as (B & _).
    rewrite A, B.
    destruct (set_uint64 (SwitchConnection.device_id (SwitchConnection.self w)));
      cbn [snd]; rewrite ?new_events_app, ?new_events_same; reflexivity.
  - destruct (write_run w true table_entry []) as (_ & A & _).
    destruct (write_run w false table_entry []) as (_ & B & _).
    rewrite A, B.
    destruct (set_uint64 (SwitchConnection.device_id (SwitchConnection.self w)));
      cbn [snd]; rewrite ?new_events_app, ?new_events_same; reflexivity.
  - unfold SwitchConnection.ReadTableEntries, SwitchConnection.gen_lift,
      SwitchConnection.print_or_read, SwitchConnection.read_stream.
    destruct (set_uint64 (SwitchConnection.device_id (SwitchConnection.self w)));
      [|cbn [snd]; rewrite new_events_same; reflexivity..].
    match goal with |- context [set_uint32 ?x] => destruct (set_uint32 x) end;
      cbn [snd]; rewrite ?new_events_app, ?new_events_same; reflexivity.
  - unfold SwitchConnection.ReadCounters, SwitchConnection.gen_lift,
      SwitchConnection.print_or_read, SwitchConnection.read_stream.
    destruct (set_uint64 (SwitchConnection.device_id (SwitchConnection.self w)));
      [|cbn [snd]; rewrite new_events_same; reflexivity..].
    match goal with |- context [set_uint32 ?x] => destruct (set_uint32 x) end;
      [|cbn [snd]; rewrite new_events_same; reflexivity..].
    destruct index as [i|]; [destruct (set_int64 i)|];
      cbn [snd]; rewrite ?new_events_app, ?new_events_same; reflexivity.
  - destruct (write_run w true (mkTableEntry 0 false []) pre_entry) as (_ & _ & A).
    destruct (write_run w false (mkTableEntry 0 false []) pre_entry) as (_ & _ & B).
    rewrite A, B.
    destruct (set_uint64 (SwitchConnection.device_id (SwitchConnection.self w)));
      cbn [snd]; rewrite ?new_events_app, ?new_events_same; reflexivity.
Qed.

Lemma dry_run_prints_the_request_that_would_be_sent_witness :
  map Client.carried
      (Client.new_events Scenario.busy_world
         (SwitchConnection.exec Scenario.base_classes
            (SwitchConnection.OpWriteTableEntry (mkTableEntry 7 true [x01]))
            true Scenario.busy_world))
  = firstn 1
      (map Client.carried
         (Client.new_events Scenario.busy_world
            (SwitchConnection.exec Scenario.base_classes
               (SwitchConnection.OpWriteTableEntry (mkTableEntry 7 true [x01]))
               false Scenario.busy_world))).
Proof.
  exact (dry_run_prints_the_request_that_would_be_sent Scenario.base_classes
           (SwitchConnection.OpWriteTableEntry (mkTableEntry 7 true [x01]))
           Scenario.busy_world eq_refl).
Defined.

Section Frame.

Import SwitchConnection Client.

Lemma queue_of_set_other q q' l d :
  q <> q' -> queue_of q (set_queue q' l d) = queue_of q d.
Proof. destruct q, q'; intros H; try reflexivity; now elim H. Qed.

Lemma running_set_queue q l d :
  StreamDispatcher.running (set_queue q l d) = StreamDispatcher.running d.
Proof. destruct q; reflexivity. Qed.

(** What a blocking get leaves alone. *)
Lemma queue_get_frame q' w :
  let w' := snd (queue_get q' w) in
  (forall q, q <> q' ->
     queue_of q (dispatcher (self w')) = queue_of q (dispatcher (self w)))
  /\ StreamDispatcher.running (dispatcher (self w'))
     = StreamDispatcher.running (dispatcher (self w))
  /\ requests_stream (self w') = requests_stream (self w)
  /\ trace w' = trace w ++ [EvGet q'].
Proof.
  cbn zeta. rewrite queue_get_spec.
  destruct (queue_of q' (dispatcher (self w))); cbn; repeat split; intros;
    auto using queue_of_set_other, running_set_queue.
Qed.

(** The operations that pull from no queue leave the dispatcher as it
    is. *)
Lemma exec_keeps_dispatcher classes op dry_run w :
  pulled_queue op = None ->
  dispatcher (self (exec classes op dry_run w)) = dispatcher (self w).
Proof.
  intros P. destruct op; try discriminate P; cbn [exec]; unfold after.
  - rewrite pipeline_config_run.
    destruct (m_buildDeviceConfig (classes (cls (self w))) kwargs);
      [|reflexivity..].
    destruct (set_uint64 (device_id (self w))); [|reflexivity..].
    destruct dry_run; reflexivity.
  - destruct (write_run w dry_run table_entry []) as (A & _). rewrite A.
    destruct (set_uint64 (device_id (self w))); [|reflexivity..].
    destruct dry_run; reflexivity.
  - destruct (write_run w dry_run table_entry []) as (_ & A & _). rewrite A.
    destruct (set_uint64 (device_id (self w))); [|reflexivity..].
    destruct dry_run; reflexivity.
  - unfold ReadTableEntries, gen_lift, print_or_read, read_stream.
    destruct (set_uint64 (device_id (self w))); [|reflexivity..].
    match goal with |- context [set_uint32 ?x] => destruct (set_uint32 x) end;
      [|reflexivity..].
    destruct dry_run; reflexivity.
  - unfold ReadCounters, gen_lift, print_or_read, read_stream.
    destruct (set_uint64 (device_id (self w))); [|reflexivity..].
    match goal with |- context [set_uint32 ?x] => destruct (set_uint32 x) end;
      [|reflexivity..].
    destruct index as [i|]; [destruct (set_int64 i)|];
      try reflexivity; destruct dry_run; reflexivity.
  - destruct (write_run w dry_run (mkTableEntry 0 false []) pre_entry)
      as (_ & _ & A). rewrite A.
    destruct (set_uint64 (device_id (self w))); [|reflexivity..].
    destruct dry_run; reflexivity.
Qed.

End Frame.

(** Each operation touches one delivery queue at most.  Whatever the
    operation, its arguments and the dry-run flag, every delivery queue
    other than the one the operation pulls from (the arbitration queue for
    MasterArbitrationUpdate, the packet-in queue for PacketIn, the timeout
    queue for IdleTimeoutNotification, none for the others) holds after
    the call what it held before, and the dispatcher's flag is unchanged.
    In particular no operation ever takes anything from the error queue:
    what the dispatcher routes there stays there. *)
Theorem operations_leave_other_queues_alone :
  forall (classes : string -> SwitchConnection.PyClass)
         (op : SwitchConnection.Operation) (dry_run : bool)
         (w : SwitchConnection.World),
    let w' := SwitchConnection.exec classes op dry_run w in
    (forall q, Client.pulled_queue op <> Some q ->
       SwitchConnection.queue_of q
         (SwitchConnection.dispatcher (SwitchConnection.self w'))
       = SwitchConnection.queue_of q
           (SwitchConnection.dispatcher (SwitchConnection.self w))) /\
    StreamDispatcher.error_queue
      (SwitchConnection.dispatcher (SwitchConnection.self w'))
    = StreamDispatcher.error_queue
        (SwitchConnection.dispatcher (SwitchConnection.self w)) /\
    StreamDispatcher.running
      (SwitchConnection.dispatcher (SwitchConnection.self w'))
    = StreamDispatcher.running
        (SwitchConnection.dispatcher (SwitchConnection.self w)).
Proof.
  intros classes op dry w w'.
  assert (G : (forall q, Client.pulled_queue op <> Some q ->
                 SwitchConnection.queue_of q
                   (SwitchConnection.dispatcher (SwitchConnection.self w'))
                 = SwitchConnection.queue_of q
                     (SwitchConnection.dispatcher (SwitchConnection.self w)))
              /\ StreamDispatcher.running
                   (SwitchConnection.dispatcher (SwitchConnection.self w'))
                 = StreamDispatcher.running
                     (SwitchConnection.dispatcher (SwitchConnection.self w))).
  { destruct (Client.pulled_queue op) as [q0|] eqn:Q.
    - assert (E : w' = SwitchConnection.exec classes op dry w) by reflexivity.
      clearbody w'.
      destruct op; try discriminate Q; cbn [Client.pulled_queue] in Q;
        injection Q as <-; cbn [SwitchConnection.exec] in E;
        unfold SwitchConnection.after in E.
      + (* MasterArbitrationUpdate *)
        destruct (in_range_cases w) as [[R _] | [N _]].
        * destruct dry.
          -- rewrite (master_arbitration_dry w R) in E. subst w'.
             split; reflexivity.
          -- rewrite (master_arbitration_run w R) in E.
             destruct (StreamDispatcher.arbitration_queue
                         (SwitchConnection.dispatcher (SwitchConnection.self w)));
               subst w'; cbn [snd SwitchConnection.self
                              SwitchConnection.with_dispatcher
                              SwitchConnection.with_requests_stream
                              SwitchConnection.dispatcher];
               (split;
                [intros q Hq;
                 first [reflexivity | apply queue_of_set_other; congruence]
                | first [reflexivity | apply running_set_queue]]).
        * rewrite (master_arbitration_out_of_range dry w N) in E. subst w'.
          split; reflexivity.
      + (* PacketIn *)
        unfold SwitchConnection.PacketIn, SwitchConnection.bind in E.
        match type of E with
        | context [SwitchConnection.queue_get ?q0 ?w0] =>
            destruct (queue_get_frame q0 w0) as (F & R & _);
            destruct (SwitchConnection.queue_get q0 w0) as [[p|e|] w1]
        end; cbn [snd] in F, R; destruct dry; cbn in E; subst w';
          cbn [SwitchConnection.self]; split;
          try (intros q Hq; rewrite F by congruence; reflexivity);
          rewrite R; reflexivity.
      + (* IdleTimeoutNotification *)
        unfold SwitchConnection.IdleTimeoutNotification, SwitchConnection.bind in E.
        match type of E with
        | context [SwitchConnection.queue_get ?q0 ?w0] =>
            destruct (queue_get_frame q0 w0) as (F & R & _);
            destruct (SwitchConnection.queue_get q0 w0) as [[p|e|] w1]
        end; cbn [snd] in F, R; destruct dry; cbn in E; subst w';
          cbn [SwitchConnection.self]; split;
          try (intros q Hq; rewrite F by congruence; reflexivity);
          rewrite R; reflexivity.
    - subst w'. rewrite (exec_keeps_dispatcher classes op dry w Q).
      split; reflexivity. }
  destruct G as [G R]. split; [exact G|]. split; [|exact R].
  apply (G SwitchConnection.error_q). destruct op; discriminate.
Qed.

Lemma operations_leave_other_queues_alone_witness :
  SwitchConnection.queue_of SwitchConnection.timeout_q
    (SwitchConnection.dispatcher
       (SwitchConnection.self
          (SwitchConnection.exec Scenario.base_classes SwitchConnection.OpPacketIn
             false Scenario.busy_world)))
  = SwitchConnection.queue_of SwitchConnection.timeout_q
      (SwitchConnection.dispatcher (SwitchConnection.self Scenario.busy_world)).
Proof.
  apply (proj1 (operations_leave_other_queues_alone Scenario.base_classes
                  SwitchConnection.OpPacketIn false Scenario.busy_world)).
  cbn. intros H; discriminate H.
Defined.

(** Shutdown neither drains the delivery queues nor wakes anybody: after
    shutdown each of the four queues holds what it held, so a PacketIn or
    IdleTimeoutNotification (without dry run) after shutdown returns the
    payload it would have returned before, and blocks when its queue is
    empty. *)
Theorem shutdown_keeps_delivery_queues :
  forall (w : SwitchConnection.World),
    let w' := SwitchConnection.after SwitchConnection.shutdown w in
    (forall q,
       SwitchConnection.queue_of q
         (SwitchConnection.dispatcher (SwitchConnection.self w'))
       = SwitchConnection.queue_of q
           (SwitchConnection.dispatcher (SwitchConnection.self w))) /\
    fst (SwitchConnection.PacketIn false w')
    = fst (SwitchConnection.PacketIn false w) /\
    fst (SwitchConnection.IdleTimeoutNotification false w')
    = fst (SwitchConnection.IdleTimeoutNotification false w).
Proof.
  intros w w'. subst w'. unfold SwitchConnection.after.
  rewrite shutdown_spec. cbn [snd].
  assert (P : forall w, SwitchConnection.PacketIn false w
                        = SwitchConnection.bind
                            (SwitchConnection.queue_get SwitchConnection.packet_in_q)
                            (fun x => SwitchConnection.ret (Some x)) w)
    by reflexivity.
  assert (T : forall w, SwitchConnection.IdleTimeoutNotification false w
                        = SwitchConnection.bind
                            (SwitchConnection.queue_get SwitchConnection.timeout_q)
                            (fun x => SwitchConnection.ret (Some x)) w)
    by reflexivity.
  split; [intros q; destruct q; reflexivity|].
  rewrite !(pull_head _ _ P), !(pull_head _ _ T).
  cbn [SwitchConnection.self SwitchConnection.dispatcher
       SwitchConnection.queue_of StreamDispatcher.stop
       StreamDispatcher.packet_in_queue StreamDispatcher.timeout_queue].
  split.
  - destruct (StreamDispatcher.packet_in_queue
                (SwitchConnection.dispatcher (SwitchConnection.self w)));
      reflexivity.
  - destruct (StreamDispatcher.timeout_queue
                (SwitchConnection.dispatcher (SwitchConnection.self w)));
      reflexivity.
Qed.

(** ** The registry *)

Section Registry.

Import SwitchConnection Client.

Lemma shutdown_loop_length classes cs :
  forall remote log,
    List.length (snd (fst (shutdown_loop classes cs remote log)))
    = List.length cs.
Proof.
  induction cs as [|c cs IH]; intros remote log.
  - reflexivity.
  - cbn [shutdown_loop].
    destruct (m_shutdown (classes (cls c)) (mkWorld c remote log))
      as [[u|e|] w']; try reflexivity.
    specialize (IH remote (trace w')).
    destruct (shutdown_loop classes cs remote (trace w')) as [[r cs'] log'].
    cbn in *. now rewrite IH.
Qed.

Lemma identity_shut_down c : identity (shut_down c) = identity c.
Proof. reflexivity. Qed.

End Registry.

(** Bulk shutdown never removes a connection from the registry: whatever
    the classes of the registered connections, and whether it returns or
    ends with an exception, the registry holds as many connections after
    as before.  When the connections use SwitchConnection.shutdown, their
    names, addresses and device ids are the same after as before, in the
    same order, so a second bulk shutdown runs over the same connections
    and returns normally too. *)
Theorem bulk_shutdown_keeps_registry :
  forall (classes : string -> SwitchConnection.PyClass)
         (p : SwitchConnection.Process),
    List.length
      (SwitchConnection.connections
         (snd (SwitchConnection.ShutdownAllSwitchConnections classes p)))
    = List.length (SwitchConnection.connections p) /\
    (Forall (SwitchConnection.inherits_shutdown classes)
            (SwitchConnection.connections p) ->
     let p1 := snd (SwitchConnection.ShutdownAllSwitchConnections classes p) in
     map Client.identity (SwitchConnection.connections p1)
     = map Client.identity (SwitchConnection.connections p) /\
     fst (SwitchConnection.ShutdownAllSwitchConnections classes p1) = Ret tt /\
     forallb SwitchConnection.stopped
       (SwitchConnection.connections
          (snd (SwitchConnection.ShutdownAllSwitchConnections classes p1)))
     = true).
Proof.
  intros classes p. split.
  - unfold SwitchConnection.ShutdownAllSwitchConnections.
    pose proof (shutdown_loop_length classes (SwitchConnection.connections p)
                  (SwitchConnection.remote p) (SwitchConnection.log p)) as L.
    destruct (SwitchConnection.shutdown_loop classes
                (SwitchConnection.connections p) (SwitchConnection.remote p)
                (SwitchConnection.log p)) as [[r cs] log'].
    exact L.
  - intros H p1.
    assert (Step : forall cs remote log,
               Forall (SwitchConnection.inherits_shutdown classes) cs ->
               SwitchConnection.ShutdownAllSwitchConnections classes
                 (SwitchConnection.mkProcess cs remote log)
               = (Ret tt,
                  SwitchConnection.mkProcess
                    (map SwitchConnection.shut_down cs) remote
                    (log ++ repeat (SwitchConnection.EvPut IterableQueue.Sentinel)
                                   (List.length cs)))).
    { intros cs remote log Hcs.
      unfold SwitchConnection.ShutdownAllSwitchConnections.
      cbn [SwitchConnection.connections SwitchConnection.remote
           SwitchConnection.log].
      rewrite <- (app_nil_r cs) at 1.
      rewrite (shutdown_loop_inherited classes cs [] remote log Hcs).
      cbn. now rewrite app_nil_r. }
    assert (Inh : Forall (SwitchConnection.inherits_shutdown classes)
                    (map SwitchConnection.shut_down
                       (SwitchConnection.connections p))).
    { apply Forall_map. revert H. apply Forall_impl. intros c Hc. exact Hc. }
    subst p1. destruct p as [cs remote log].
    cbn [SwitchConnection.connections] in *.
    rewrite (Step cs remote log H). cbn [snd SwitchConnection.connections].
    rewrite (Step _ remote _ Inh). cbn [fst snd SwitchConnection.connections].
    split; [|split; [reflexivity | apply all_shut_down_stopped]].
    rewrite map_map. apply map_ext. intros c. apply identity_shut_down.
Qed.

Lemma bulk_shutdown_keeps_registry_witness :
  map Client.identity
    (SwitchConnection.connections
       (snd (SwitchConnection.ShutdownAllSwitchConnections Scenario.base_classes
               Scenario.three_plain)))
  = map Client.identity (SwitchConnection.connections Scenario.three_plain).
Proof.
  exact (proj1 (proj2 (bulk_shutdown_keeps_registry Scenario.base_classes
                         Scenario.three_plain)
                  (Forall_cons _ eq_refl
                     (Forall_cons _ eq_refl
                        (Forall_cons _ eq_refl (Forall_nil _)))))).
Defined.

(** The constructor registers what it builds, unless the dump file
    cannot be opened.  With a dump file that the operating system refuses
    to open for writing, the constructor raises that error, the registry
    and the file system are as before, and no connection exists.
    Otherwise it returns a connection with the given name, address and
    device id, an empty outbound queue and a running dispatcher with four
    empty queues, added at the end of the registry behind the connections
    registered before; a dump file, if given, has been emptied (truncated
    once), and without one the file system is untouched.  A bulk shutdown
    right after (all connections using SwitchConnection.shutdown) leaves
    the new connection stopped, with an outbound stream that ends at
    once. *)
Theorem constructor_registers_unless_dump_file_is_refused :
  forall (refused : string -> option Exn)
         (classes : string -> SwitchConnection.PyClass)
         (cls : string) (name : option string) (address : string)
         (device_id : Z) (dump : option string)
         (fs : GrpcRequestLogger.FileSystem) (p : SwitchConnection.Process),
    let r := SwitchConnection.__init__ refused cls name address device_id dump
               fs p in
    (forall path e,
        dump = Some path -> refused path = Some e -> r = (Raise e, fs, p)) /\
    ((dump = None \/ exists path, dump = Some path /\ refused path = None) ->
     exists c,
       fst (fst r) = Ret c /\
       SwitchConnection.connections (snd r)
       = SwitchConnection.connections p ++ [c] /\
       Client.identity c = (name, address, device_id) /\
       SwitchConnection.requests_stream c = [] /\
       SwitchConnection.stopped c = false /\
       StreamDispatcher.queued (SwitchConnection.dispatcher c) = 0 /\
       (dump = None -> snd (fst r) = fs) /\
       (forall path,
           dump = Some path ->
           GrpcRequestLogger.content (snd (fst r)) path = "" /\
           GrpcRequestLogger.truncations path (snd (fst r))
           = S (GrpcRequestLogger.truncations path fs)) /\
       (Forall (SwitchConnection.inherits_shutdown classes)
               (SwitchConnection.connections (snd r)) ->
        exists c',
          nth_error
            (SwitchConnection.connections
               (snd (SwitchConnection.ShutdownAllSwitchConnections classes
                       (snd r))))
            (List.length (SwitchConnection.connections p))
          = Some c'
          /\ Client.identity c' = (name, address, device_id)
          /\ SwitchConnection.stopped c' = true
          /\ IterableQueue.consume 1 IterableQueue.__iter__
               (SwitchConnection.requests_stream c')
             = ([], IterableQueue.Finished, IterableQueue.mkIterator true, []))).
Proof.
  intros refused classes cls name address device_id dump fs p r.
  assert (Bulk :
    forall remote log,
      Forall (SwitchConnection.inherits_shutdown classes)
        (SwitchConnection.connections p
         ++ [SwitchConnection.mk cls name address device_id IterableQueue.empty
               StreamDispatcher.__init__ dump]) ->
      exists c',
        nth_error
          (SwitchConnection.connections
             (snd (SwitchConnection.ShutdownAllSwitchConnections classes
                     (SwitchConnection.mkProcess
                        (SwitchConnection.connections p
                         ++ [SwitchConnection.mk cls name address device_id
                               IterableQueue.empty StreamDispatcher.__init__ dump])
                        remote log))))
          (List.length (SwitchConnection.connections p))
        = Some c'
        /\ Client.identity c' = (name, address, device_id)
        /\ SwitchConnection.stopped c' = true
        /\ IterableQueue.consume 1 IterableQueue.__iter__
             (SwitchConnection.requests_stream c')
           = ([], IterableQueue.Finished, IterableQueue.mkIterator true, [])).
  { intros remote log H.
    unfold SwitchConnection.ShutdownAllSwitchConnections.
    cbn [SwitchConnection.connections SwitchConnection.remote SwitchConnection.log].
    rewrite <- (app_nil_r (SwitchConnection.connections p ++ _)).
    rewrite (shutdown_loop_inherited classes _ [] _ _ H).
    cbn [SwitchConnection.shutdown_loop snd SwitchConnection.connections].
    rewrite app_nil_r, map_app. cbn [map].
    eexists. split.
    - rewrite nth_error_app2 by (rewrite length_map; lia).
      rewrite length_map, Nat.sub_diag. reflexivity.
    - repeat split. }
  subst r. unfold SwitchConnection.__init__, GrpcRequestLogger.create.
  destruct dump as [path|].
  - destruct (refused path) as [e|] eqn:Er.
    + split.
      * intros path' e' Hp He. injection Hp as <-. rewrite Er in He.
        now injection He as <-.
      * intros [H | (path' & Hp & Hn)]; [discriminate H|].
        injection Hp as <-. rewrite Er in Hn. discriminate Hn.
    + split.
      * intros path' e' Hp He. injection Hp as <-. rewrite Er in He.
        discriminate He.
      * intros _. cbn [fst snd GrpcRequestLogger.__init__].
        eexists. split; [reflexivity|].
        split; [reflexivity|]. split; [reflexivity|]. split; [reflexivity|].
        split; [reflexivity|]. split; [reflexivity|].
        split; [intros H; discriminate H|]. split.
        -- intros path' Hp. injection Hp as <-.
           cbn [GrpcRequestLogger.log_file]. split.
           ++ now rewrite content_write, content_open_w.
           ++ rewrite truncations_write. apply truncations_open_w.
        -- apply Bulk.
  - split.
    + intros path e H. discriminate H.
    + intros _. cbn [fst snd].
      eexists. split; [reflexivity|].
      split; [reflexivity|]. split; [reflexivity|]. split; [reflexivity|].
      split; [reflexivity|]. split; [reflexivity|].
      split; [reflexivity|]. split; [intros path H; discriminate H|].
      apply Bulk.
Qed.

Lemma constructor_registers_unless_dump_file_is_refused_witness :
  SwitchConnection.__init__
    (fun path => if String.eqb path "/proc/dump.txt"
                 then Some (OSError "Permission denied") else None)
    "SwitchConnection" (Some "s4") "127.0.0.1:50054" 3 (Some "/proc/dump.txt")
    Scenario.logger_fs Scenario.three_plain
  = (Raise (OSError "Permission denied"), Scenario.logger_fs, Scenario.three_plain)
  /\ exists c,
      fst (fst (SwitchConnection.__init__ Scenario.openable "SwitchConnection"
                  (Some "s4") "127.0.0.1:50054" 3 (Some Scenario.dump_file)
                  Scenario.logger_fs Scenario.three_plain))
      = Ret c
      /\ SwitchConnection.connections
           (snd (SwitchConnection.__init__ Scenario.openable "SwitchConnection"
                   (Some "s4") "127.0.0.1:50054" 3 (Some Scenario.dump_file)
                   Scenario.logger_fs Scenario.three_plain))
         = SwitchConnection.connections Scenario.three_plain ++ [c].
Proof.
  split.
  - exact (proj1 (constructor_registers_unless_dump_file_is_refused
                    (fun path => if String.eqb path "/proc/dump.txt"
                                 then Some (OSError "Permission denied")
                                 else None)
                    Scenario.base_classes "SwitchConnection" (Some "s4")
                    "127.0.0.1:50054" 3 (Some "/proc/dump.txt")
                    Scenario.logger_fs Scenario.three_plain)
             "/proc/dump.txt" (OSError "Permission denied") eq_refl eq_refl).
  - destruct (proj2 (constructor_registers_unless_dump_file_is_refused
                       Scenario.openable Scenario.base_classes
                       "SwitchConnection" (Some "s4") "127.0.0.1:50054" 3
                       (Some Scenario.dump_file) Scenario.logger_fs
                       Scenario.three_plain)
                (or_intror (ex_intro _ Scenario.dump_file (conj eq_refl eq_refl))))
      as (c & E & R & _).
    exists c. split; [exact E | exact R].
Defined.

(** ** More on the request logger *)

Section LoggerMore.

Import GrpcRequestLogger Client.

Lemma files_write_other path p s fs :
  p <> path -> files (write path s fs) p = files fs p.
Proof.
  intros H. unfold write, store. cbn.
  now rewrite (proj2 (String.eqb_neq p path) H).
Qed.

Lemma files_open_a_other path p fs :
  p <> path -> files (open_a path fs) p = files fs p.
Proof.
  intros H. unfold open_a, store. cbn.
  now rewrite (proj2 (String.eqb_neq p path) H).
Qed.

Lemma files_open_w_other path p fs :
  p <> path -> files (open_w path fs) p = files fs p.
Proof.
  intros H. unfold open_w, store. cbn.
  now rewrite (proj2 (String.eqb_neq p path) H).
Qed.

Variable Body : Type.
Variable str : Body -> string.

Lemma log_message_other self now method_name body fs p :
  p <> log_file self ->
  files (log_message Body str self now method_name body fs) p = files fs p.
Proof.
  intros H. unfold log_message.
  destruct (String.length (str body) <? MSG_LOG_MAX_LEN)%nat;
    rewrite !files_write_other, files_open_a_other by exact H; reflexivity.
Qed.

Lemma log_calls_other self calls p :
  p <> log_file self ->
  forall fs, files (log_calls Body str self calls fs) p = files fs p.
Proof.
  intros H. unfold log_calls.
  induction calls as [|[[now method] body] calls IH]; intros fs; cbn [fold_left].
  - reflexivity.
  - rewrite IH. now apply log_message_other.
Qed.

Lemma log_calls_content self calls :
  forall fs,
    content (log_calls Body str self calls fs) (log_file self)
    = (content fs (log_file self)
       ++ fold_right append "" (map (record_for str) calls))%string.
Proof.
  unfold log_calls.
  induction calls as [|[[now method] body] calls IH]; intros fs;
    cbn [fold_left map fold_right].
  - induction (content fs (log_file self)) as [|ch s IHs]; cbn;
      [reflexivity | now rewrite <- IHs].
  - rewrite IH, log_message_content, string_app_assoc. reflexivity.
Qed.

End LoggerMore.

(** The logger writes to its own file only: creating a logger and logging
    any sequence of requests leave every file at another path exactly as
    it was (present or not, same content). *)
Theorem logger_touches_only_its_file :
  forall (Body : Type) (str : Body -> string) (log_file path : string)
         (calls : list (GrpcRequestLogger.Call Body))
         (fs : GrpcRequestLogger.FileSystem),
    path <> log_file ->
    let self := fst (GrpcRequestLogger.__init__ log_file fs) in
    let fs1 := snd (GrpcRequestLogger.__init__ log_file fs) in
    GrpcRequestLogger.files fs1 path = GrpcRequestLogger.files fs path /\
    GrpcRequestLogger.files
      (GrpcRequestLogger.log_calls Body str self calls fs1) path
    = GrpcRequestLogger.files fs path.
Proof.
  intros Body str log_file path calls fs H self fs1. subst self fs1.
  unfold GrpcRequestLogger.__init__. cbn [fst snd GrpcRequestLogger.log_file].
  assert (E : GrpcRequestLogger.files
                (GrpcRequestLogger.write log_file ""
                   (GrpcRequestLogger.open_w log_file fs)) path
              = GrpcRequestLogger.files fs path).
  { now rewrite files_write_other, files_open_w_other. }
  split; [exact E|].
  rewrite log_calls_other by exact H. exact E.
Qed.

Lemma logger_touches_only_its_file_witness :
  GrpcRequestLogger.files
    (GrpcRequestLogger.log_calls string (fun s => s)
       (fst (GrpcRequestLogger.__init__ "b.txt" Scenario.logger_fs))
       [(Scenario.clock, "/p4.v1.P4Runtime/Write", "x")]
       (snd (GrpcRequestLogger.__init__ "b.txt" Scenario.logger_fs)))
    Scenario.dump_file
  = GrpcRequestLogger.files Scenario.logger_fs Scenario.dump_file.
Proof.
  apply (proj2 (logger_touches_only_its_file string (fun s => s) "b.txt"
                  Scenario.dump_file
                  [(Scenario.clock, "/p4.v1.P4Runtime/Write", "x")]
                  Scenario.logger_fs
                  (proj1 (String.eqb_neq Scenario.dump_file "b.txt") eq_refl))).
Defined.

(** The log file is the sequence of the records, nothing else: whatever
    the file held before the logger was created, after creation and a
    sequence of logged requests it holds exactly the records of those
    requests, one per request, in the order of the calls (each with its
    body, or with the placeholder when the body has 1024 characters or
    more); and the interceptor returns what the continuation returns for
    the unchanged method name and request. *)
Theorem log_file_is_the_sequence_of_records :
  forall (Body : Type) (str : Body -> string) (log_file : string)
         (calls : list (GrpcRequestLogger.Call Body))
         (fs : GrpcRequestLogger.FileSystem),
    let self := fst (GrpcRequestLogger.__init__ log_file fs) in
    let fs1 := snd (GrpcRequestLogger.__init__ log_file fs) in
    GrpcRequestLogger.content
      (GrpcRequestLogger.log_calls Body str self calls fs1) log_file
    = fold_right append "" (map (Client.record_for str) calls) /\
    forall (R : Type) (continuation : string -> Body -> R) now method request,
      fst (GrpcRequestLogger.intercept Body str self now continuation method
             request fs1)
      = continuation method request /\
      GrpcRequestLogger.content
        (snd (GrpcRequestLogger.intercept Body str self now continuation method
                request fs1)) log_file
      = Client.record_for str (now, method, request).
Proof.
  intros Body str log_file calls fs self fs1.
  assert (E : GrpcRequestLogger.content fs1 log_file = "").
  { subst fs1. unfold GrpcRequestLogger.__init__.
    cbn [snd GrpcRequestLogger.log_file].
    now rewrite content_write, content_open_w. }
  assert (L : GrpcRequestLogger.log_file self = log_file) by reflexivity.
  split.
  - pose proof (log_calls_content Body str self calls fs1) as C.
    rewrite L, E in C. exact C.
  - intros R continuation now method request. split; [reflexivity|].
    unfold GrpcRequestLogger.intercept. cbn [snd].
    pose proof (log_message_content Body str self now method request fs1) as C.
    rewrite L, E in C. exact C.
Qed.

(** ** Width of the encoding, and the timestamp *)

Section Padding.

Local Open Scope Z_scope.

Lemma digits256_zero (k : nat) : digits256 k 0 = repeat x00 k.
Proof.
  induction k as [|k IH]; cbn [digits256 repeat].
  - reflexivity.
  - change (0 / 256) with 0. rewrite IH. reflexivity.
Qed.

Lemma digits256_padding (n k : nat) :
  forall v, 0 <= v < 256 ^ Z.of_nat n ->
            digits256 (n + k) v = digits256 n v ++ repeat x00 k.
Proof.
  induction n as [|n IH]; intros v Hv.
  - cbn [Nat.add digits256 app]. assert (v = 0) by (cbn in Hv; lia). subst v.
    apply digits256_zero.
  - cbn [Nat.add digits256 app]. rewrite IH; [reflexivity|].
    rewrite Nat2Z.inj_succ, Z.pow_succ_r in Hv by lia.
    split.
    + apply Z.div_pos; lia.
    + apply Z.div_lt_upper_bound; lia.
Qed.

End Padding.

(** A wider [to_bytes] only adds zero bytes in front: when the call
    returns for a value on [n] bytes and on [n + k] bytes, the second
    result is [k] zero bytes followed by the first.  So the 16 bytes
    PacketOut produces for a 16-bit field are 14 zero bytes followed by
    the 2-byte encoding. *)
Theorem wider_encoding_is_zero_padding :
  forall (v n k : Z) (bs bs' : bytes),
    (0 <= k)%Z ->
    int_to_bytes_big v n = Ret bs ->
    int_to_bytes_big v (n + k) = Ret bs' ->
    bs' = repeat x00 (Z.to_nat k) ++ bs.
Proof.
  intros v n k bs bs' Hk E E'.
  destruct (int_to_bytes_big_ret _ _ _ E) as (Hn & Hv & ->).
  destruct (int_to_bytes_big_ret _ _ _ E') as (_ & _ & ->).
  rewrite Z2Nat.inj_add by lia.
  rewrite (digits256_padding (Z.to_nat n) (Z.to_nat k) v)
    by (rewrite Z2Nat.id by lia; exact Hv).
  now rewrite rev_app_distr, rev_repeat.
Qed.

Lemma wider_encoding_is_zero_padding_witness :
  [x00; x00; x00; x00; x00; x00; x00; x00;
   x00; x00; x00; x00; x00; x00; x01; x2c]
  = repeat x00 (Z.to_nat 14) ++ [x01; x2c].
Proof.
  apply (wider_encoding_is_zero_padding 300 2 14).
  - apply Z.leb_le. reflexivity.
  - reflexivity.
  - reflexivity.
Defined.

Section Timestamp.

Lemma substring_prefix (s t : string) :
  substring 0 (String.length s) (s ++ t) = s.
Proof.
  induction s as [|ch s IH]; cbn.
  - destruct t; reflexivity.
  - now rewrite IH.
Qed.

Lemma string_length_app (s t : string) :
  String.length (s ++ t) = String.length s + String.length t.
Proof.
  induction s as [|ch s IH]; cbn; [reflexivity | now rewrite IH].
Qed.

End Timestamp.

(** The timestamp slice [[:-3]] cuts exactly the last three characters:
    from a string that ends in three characters [t] it keeps what comes
    before them (microseconds become milliseconds), and from a string of
    fewer than three characters it keeps nothing. *)
Theorem timestamp_slice_drops_last_three :
  forall s t : string,
    (String.length t = 3 -> drop_last3 (s ++ t) = s) /\
    (String.length s < 3 -> drop_last3 s = "").
Proof.
  intros s t. split.
  - intros H. unfold drop_last3.
    rewrite string_length_app, H, Nat.add_sub. apply substring_prefix.
  - intros H. unfold drop_last3.
    replace (String.length s - 3) with 0 by lia.
    destruct s; reflexivity.
Qed.

Lemma timestamp_slice_drops_last_three_witness :
  drop_last3 ("2024-05-06 07:08:09.123" ++ "456") = "2024-05-06 07:08:09.123"
  /\ drop_last3 "ab" = "".
Proof.
  split.
  - apply (proj1 (timestamp_slice_drops_last_three
                    "2024-05-06 07:08:09.123" "456")).
    reflexivity.
  - apply (proj2 (timestamp_slice_drops_last_three "ab" "")).
    apply Nat.ltb_lt. reflexivity.
Defined.
